(** * Convergence of node groups: candictl/pkg/kubernetes/actions/converge/node.go

    A shallow embedding of the converge actions of candictl and of the
    bounded retry executor they run under.  The cluster API client is an
    external collaborator: it is a record of transition functions over an
    arbitrary backend state, and every call the code makes is recorded in
    a trace together with the sleeps and the log lines. *)

From Stdlib Require Import ZArith NArith.
From Stdlib.Strings Require Import Ascii String Byte.
From stdpp Require Import gmap strings list pretty.

Local Set Warnings "-register-all,-clear-no-such-hyp".
Local Open Scope string_scope.
Local Open Scope nat_scope.
Local Open Scope list_scope.

(** ** Errors *)

(** [metav1.StatusReason] is a string type; the two reasons the code tests. *)
Definition StatusReason := string.
Definition StatusReasonNotFound : StatusReason := "NotFound".
Definition StatusReasonAlreadyExists : StatusReason := "AlreadyExists".
Definition StatusReasonUnknown : StatusReason := "".

(** A non-nil Go [error].  [StatusError] is the API machinery's
    [*errors.StatusError] with its reason and message; [Errorf] is the value
    built by [fmt.Errorf format operands...] (the operands in this file are
    strings); [errorString] is any other error, such as a transport failure
    or an encoding error.  Go's [error] interface value, which may be nil,
    is [option error]. *)
Inductive error :=
| StatusError (reason : StatusReason) (message : string)
| Errorf (format : string) (operands : list string)
| errorString (text : string).

(** [errors.ReasonForError]: the reason of an API status, unknown otherwise. *)
Definition ReasonForError (err : option error) : StatusReason :=
  match err with
  | Some (StatusError reason _) => reason
  | _ => StatusReasonUnknown
  end.

Definition IsAlreadyExists (err : option error) : bool :=
  bool_decide (ReasonForError err = StatusReasonAlreadyExists).

Definition IsNotFound (err : option error) : bool :=
  bool_decide (ReasonForError err = StatusReasonNotFound).

(** A Go pair [(value, err)] of a call that yields one or the other. *)
Inductive result (A : Type) :=
| Ok (a : A)
| Err (e : error).
Arguments Ok {A} a.
Arguments Err {A} e.

(** ** Objects of the cluster API *)

(** [apiv1.NodeCondition]: both fields are string types in the API. *)
Record NodeCondition := {
  Type_ : string;
  Status : string;
}.

Definition NodeReady : string := "Ready".
Definition ConditionTrue : string := "True".

Record Node := {
  Name : string;
  Conditions : list NodeCondition;   (* node.Status.Conditions *)
}.

(** [apiv1.Secret], of which the code reads [Data]. *)
Record Secret := {
  Data : gmap string (list byte);
}.

(** The content of an [unstructured.Unstructured]: a JSON-like tree,
    [map[string]interface{}] at every object node. *)
Inductive value :=
| VNull
| VBool (b : bool)
| VNumber (n : Z)
| VString (s : string)
| VArray (items : list value)
| VObject (fields : gmap string value).

Record Unstructured := {
  Object : gmap string value;
}.

(** [Unstructured.GetName]: the nested string metadata.name, empty when it
    is missing or not a string. *)
Definition GetName (u : Unstructured) : string :=
  match Object u !! "metadata" with
  | Some (VObject metadata) =>
      match metadata !! "name" with
      | Some (VString s) => s
      | _ => ""
      end
  | _ => ""
  end.

Record GroupVersionResource := {
  Group : string;
  Version : string;
  Resource : string;
}.

Definition nodeGroupResource : GroupVersionResource :=
  {| Group := "deckhouse.io"; Version := "v1alpha1"; Resource := "nodegroups" |}.

Inductive PatchType := JSONPatchType | MergePatchType | StrategicMergePatchType.

(** ** Text helpers of the Go standard library *)

Definition newline : string := String "010"%char "".

(** [strings.HasSuffix] and [strings.TrimSuffix]. *)
Definition HasSuffix (s suffix : string) : bool :=
  bool_decide (String.length suffix ≤ String.length s) &&
  bool_decide (substring (String.length s - String.length suffix)
                         (String.length suffix) s = suffix).

Definition TrimSuffix (s suffix : string) : string :=
  if HasSuffix s suffix
  then substring 0 (String.length s - String.length suffix) s
  else s.

(** [base64.StdEncoding.EncodeToString]: three bytes make four characters of
    the standard alphabet, the last group is padded with '='. *)
Definition encodeStd : string :=
  "ABCDEFGHIJKLMNOPQRSTUVWXYZabcdefghijklmnopqrstuvwxyz0123456789+/".

Definition encodeChar (v : N) : ascii :=
  default "="%char (String.get (N.to_nat (N.land v 63)) encodeStd).

Definition uint (b : byte) : N := Byte.to_N b.

Fixpoint EncodeToString (src : list byte) : string :=
  match src with
  | [] => ""
  | [b0] =>
      let val := N.shiftl (uint b0) 16 in
      String (encodeChar (N.shiftr val 18))
        (String (encodeChar (N.shiftr val 12)) "==")
  | [b0; b1] =>
      let val := N.lor (N.shiftl (uint b0) 16) (N.shiftl (uint b1) 8) in
      String (encodeChar (N.shiftr val 18))
        (String (encodeChar (N.shiftr val 12))
           (String (encodeChar (N.shiftr val 6)) "="))
  | b0 :: b1 :: b2 :: rest =>
      let val := N.lor (N.lor (N.shiftl (uint b0) 16) (N.shiftl (uint b1) 8))
                       (uint b2) in
      String (encodeChar (N.shiftr val 18))
        (String (encodeChar (N.shiftr val 12))
           (String (encodeChar (N.shiftr val 6))
              (String (encodeChar val) (EncodeToString rest))))
  end.

(** A text built by [fmt.Sprintf]: the format and its operands as the code
    passes them; [Plain] is a string literal.  Labels and log lines are kept
    in this form, rendering the verbs is the work of Go's fmt. *)
Inductive text :=
| Plain (s : string)
| Sprintf (format : string) (operands : list string).

(** ** Effects: the trace of what the code does to the outside *)

Inductive logArg :=
| ArgString (s : string)
| ArgError (e : error).

Inductive Event :=
| CallSecretsGet (namespace name : string)
| CallNodesGet (name : string)
| CallNodesList (labelSelector : string)
| CallNodesDelete (name : string)
| CallCreate (resource : GroupVersionResource) (obj : Unstructured)
| CallPatch (resource : GroupVersionResource) (name : string)
            (pt : PatchType) (data : list byte)
| CallList (resource : GroupVersionResource)
| CallDelete (resource : GroupVersionResource) (name : string)
| Sleep (seconds : N)
| InfoF (format : string) (args : list logArg)
| InfoLn (message : string)
| AttemptFailed (label : text) (attempt : nat) (err : error).

(** The durations of the sleeps of a trace, in order. *)
Definition sleeps (tr : list Event) : list N :=
  omap (λ ev, match ev with Sleep d => Some d | _ => None end) tr.

(** The calls of a trace to the cluster API, in order. *)
Definition isCall (ev : Event) : bool :=
  match ev with
  | Sleep _ | InfoF _ _ | InfoLn _ | AttemptFailed _ _ _ => false
  | _ => true
  end.

Definition calls (tr : list Event) : list Event := filter isCall tr.

(** One attempt's outcome (spec, Operation Result). *)
Inductive Result (T : Type) :=
| Success (v : T)
| Retryable (e : error).
Arguments Success {T} v.
Arguments Retryable {T} e.

Definition isSuccess {T} (r : Result T) : bool :=
  match r with Success _ => true | Retryable _ => false end.

(** The Go [error] an operation without a value returns. *)
Definition errorOf (r : Result unit) : option error :=
  match r with Success _ => None | Retryable err => Some err end.

(** Attempt Policy (spec, data model). *)
Record AttemptPolicy := {
  maxAttempts : positive;
  intervalSeconds : N;
  silent : bool;
}.

Section World.
(** The state of the cluster API behind the client. *)
Context {B : Type}.

Record World := mkWorld {
  backend : B;
  trace : list Event;
}.

(** Computations that call the client, sleep and log. *)
Definition M (A : Type) : Type := World → A * World.

#[export] Instance M_ret : MRet M := λ A a w, (a, w).
#[export] Instance M_bind : MBind M :=
  λ A C f m w, let (a, w') := m w in f a w'.

Definition emit (ev : Event) : M unit :=
  λ w, (tt, {| backend := backend w; trace := trace w ++ [ev] |}).

(** A call of the client: the backend answers and moves on, the call is
    recorded. *)
Definition call {A} (ev : Event) (f : B → A * B) : M A :=
  λ w, let (a, b) := f (backend w) in
       (a, {| backend := b; trace := trace w ++ [ev] |}).

(** [client.KubernetesClient], the part of it this file uses.  A Go pair
    [(obj, err)] is a [result]; a lone [error] is an [option error]. *)
Record KubernetesClient := {
  Secrets_Get : string → string → B → result Secret * B;
  Nodes_Get : string → B → result Node * B;
  Nodes_List : string → B → result (list Node) * B;
  Nodes_Delete : string → B → option error * B;
  Dynamic_Create :
    GroupVersionResource → Unstructured → B → result Unstructured * B;
  Dynamic_Patch :
    GroupVersionResource → string → PatchType → list byte → B →
    result Unstructured * B;
  Dynamic_List : GroupVersionResource → B → result (list Unstructured) * B;
  Dynamic_Delete : GroupVersionResource → string → B → option error * B;
}.

(** ** Bounded retry executor *)

(** Modelled from the spec: the retry package (retry.StartLoop and
    retry.StartSilentLoop, called by every function of node.go) is not
    among the sources.  Spec 4.1: the attempt is invoked up to maxAttempts
    times; the executor sleeps intervalSeconds between attempts, not after
    the final one nor after a success; it returns the value of the first
    successful attempt and, if every attempt fails, the error of the last
    one; a failed attempt is reported unless the policy is silent.
    [loop] makes attempt number [i] and has [more] further attempts left. *)
Fixpoint loop {T} (label : text) (policy : AttemptPolicy)
    (attempt : M (Result T)) (i more : nat) : M (Result T) :=
  r ← attempt;
  match r with
  | Success v => mret (Success v)
  | Retryable err =>
      (if silent policy then mret tt else emit (AttemptFailed label i err));;
      match more with
      | 0 => mret (Retryable err)
      | S more' =>
          emit (Sleep (intervalSeconds policy));;
          loop label policy attempt (S i) more'
      end
  end.

(** Modelled from the spec: [run label policy attempt] of spec 4.1, the
    first attempt followed by at most maxAttempts - 1 further ones. *)
Definition run {T} (label : text) (policy : AttemptPolicy)
    (attempt : M (Result T)) : M (Result T) :=
  loop label policy attempt 1 (Pos.to_nat (maxAttempts policy) - 1).

(** Modelled from the spec: [retry.StartLoop name attempts wait task] and
    its silent variant, as node.go calls them: the executor under the
    policy made of the two numbers.  A task's [return nil] is [Success]
    with what the closure leaves in the variables it captured, its
    [return err] is [Retryable err]. *)
Definition StartLoop {T} (name : text) (attemptsQuantity : positive)
    (waitSeconds : N) (task : M (Result T)) : M (Result T) :=
  run name {| maxAttempts := attemptsQuantity;
              intervalSeconds := waitSeconds;
              silent := false |} task.

Definition StartSilentLoop {T} (name : text) (attemptsQuantity : positive)
    (waitSeconds : N) (task : M (Result T)) : M (Result T) :=
  run name {| maxAttempts := attemptsQuantity;
              intervalSeconds := waitSeconds;
              silent := true |} task.

End World.
Arguments World : clear implicits.
Arguments M : clear implicits.
Arguments KubernetesClient : clear implicits.

(** A task's [return err] for an [err] that may be nil. *)
Definition resultOf (err : option error) : Result unit :=
  match err with None => Success tt | Some e => Retryable e end.

(** ** node.go *)

Section Converge.
Context {B : Type}.

(** [Unstructured.MarshalJSON] of the API machinery: the JSON bytes of a
    document, or an encoding error. *)
Variable MarshalJSON : Unstructured → result (list byte).

(** *** GetCloudConfig *)

(** The task of lines 43-52. *)
Definition GetCloudConfig_task (kubeCl : KubernetesClient B)
    (nodeGroupName : string) : M B (Result string) :=
  let namespace := "d8-cloud-instance-manager" in
  let name := "manual-bootstrap-for-" +:+ nodeGroupName in
  r ← call (CallSecretsGet namespace name) (Secrets_Get kubeCl namespace name);
  match r with
  | Err err => mret (Retryable err)
  | Ok secret =>
      mret (Success (EncodeToString (default [] (Data secret !! "cloud-config"))))
  end.

(** GetCloudConfig as far as its result goes: the wait of lines 43-52 and
    what is returned after it.  The goroutine of lines 29-41, which calls
    the log printer on the same client again and again until the wait is
    over, is not modelled: its results are dropped and it cannot change the
    pair returned, but its calls are missing from the trace, which holds
    the events of the wait and the final log line only.  [log.Process]
    passes the error of its body on. *)
Definition GetCloudConfig (kubeCl : KubernetesClient B)
    (nodeGroupName : string) : M B (string * option error) :=
  let name := Sprintf "Waiting for %s cloud config️" [nodeGroupName] in
  r ← StartSilentLoop name 45 5 (GetCloudConfig_task kubeCl nodeGroupName);
  match r with
  | Retryable err => mret ("", Some err)
  | Success cloudData =>
      emit (InfoLn "Cloud configuration found!");;
      mret (cloudData, None)
  end.

(** *** CreateNodeGroup *)

(** The task of lines 69-93. *)
Definition CreateNodeGroup_task (kubeCl : KubernetesClient B)
    (doc : Unstructured) : M B (Result unit) :=
  let resourceSchema :=
    {| Group := "deckhouse.io"; Version := "v1alpha1";
       Resource := "nodegroups" |} in
  r ← call (CallCreate resourceSchema doc)
           (Dynamic_Create kubeCl resourceSchema doc);
  match r with
  | Ok res =>
      emit (InfoF ("NodeGroup %q created" +:+ newline) [ArgString (GetName res)]);;
      mret (Success tt)
  | Err err =>
      if IsAlreadyExists (Some err) then
        emit (InfoF "Object %v, updating ... " [ArgError err]);;
        match MarshalJSON doc with
        | Err err => mret (Retryable err)
        | Ok content =>
            r ← call (CallPatch resourceSchema (GetName doc) MergePatchType content)
                     (Dynamic_Patch kubeCl resourceSchema (GetName doc)
                                    MergePatchType content);
            match r with
            | Err err => mret (Retryable err)
            | Ok _ => emit (InfoLn "OK!");; mret (Success tt)
            end
        end
      else mret (Success tt)
  end.

Definition CreateNodeGroup (kubeCl : KubernetesClient B)
    (nodeGroupName : string) (data : gmap string value) : M B (option error) :=
  let doc := {| Object := data |} in
  r ← StartLoop (Sprintf "Create NodeGroup %q" [nodeGroupName]) 45 15
                (CreateNodeGroup_task kubeCl doc);
  mret (errorOf r).

(** *** WaitForSingleNodeBecomeReady *)

(** The loop of lines 103-109: is there a condition of type Ready whose
    status is True. *)
Fixpoint readyCondition (conditions : list NodeCondition) : bool :=
  match conditions with
  | [] => false
  | c :: rest =>
      if bool_decide (Type_ c = NodeReady) then
        if bool_decide (Status c = ConditionTrue) then true
        else readyCondition rest
      else readyCondition rest
  end.

Definition WaitForSingleNodeBecomeReady_task (kubeCl : KubernetesClient B)
    (nodeName : string) : M B (Result unit) :=
  r ← call (CallNodesGet nodeName) (Nodes_Get kubeCl nodeName);
  match r with
  | Err err => mret (Retryable err)
  | Ok node =>
      if readyCondition (Conditions node) then mret (Success tt)
      else mret (Retryable (Errorf "node %q is not Ready yet" [nodeName]))
  end.

Definition WaitForSingleNodeBecomeReady (kubeCl : KubernetesClient B)
    (nodeName : string) : M B (option error) :=
  r ← StartLoop (Sprintf "Waiting for  Node %s to become Ready" [nodeName])
                100 20 (WaitForSingleNodeBecomeReady_task kubeCl nodeName);
  mret (errorOf r).

(** *** The readiness summary of WaitForNodesBecomeReady (lines 122-148)
    and of WaitForNodesListBecomeReady (lines 165-191), the same text in
    both. *)

(** The inner loop: the node's name enters the set at every condition of
    type Ready and status True. *)
Definition markReady (readyNodes : gset string) (node : Node) : gset string :=
  foldl (λ readyNodes c,
           if bool_decide (Type_ c = NodeReady) then
             if bool_decide (Status c = ConditionTrue)
             then {[Name node]} ∪ readyNodes
             else readyNodes
           else readyNodes)
        readyNodes (Conditions node).

Definition readyNodesOf (items : list Node) : gset string :=
  foldl markReady ∅ items.

(** The message: [%v] of an int is its decimal text, [%s] of a string the
    string. *)
Definition readinessMessage (items : list Node) (readyNodes : gset string)
    (desiredReadyNodes : Z) : string :=
  foldl (λ message node,
           let condition :=
             if bool_decide (Name node ∈ readyNodes) then "Ready"
             else "NotReady" in
           message +:+ ("* " +:+ Name node +:+ " | " +:+ condition +:+ newline))
        ("Nodes Ready " +:+ pretty (size readyNodes) +:+ " of "
           +:+ pretty desiredReadyNodes +:+ newline)
        items.

Definition checkReadiness (items : list Node) (desiredReadyNodes : Z) :
    M B (Result unit) :=
  let readyNodes := readyNodesOf items in
  let message := readinessMessage items readyNodes desiredReadyNodes in
  if (Z.of_nat (size readyNodes) >=? desiredReadyNodes)%Z then
    emit (InfoLn message);; mret (Success tt)
  else mret (Retryable (Errorf (TrimSuffix message newline) [])).

(** *** WaitForNodesBecomeReady *)

Definition WaitForNodesBecomeReady_task (kubeCl : KubernetesClient B)
    (nodeGroupName : string) (desiredReadyNodes : Z) : M B (Result unit) :=
  let labelSelector := "node.deckhouse.io/group=" +:+ nodeGroupName in
  r ← call (CallNodesList labelSelector) (Nodes_List kubeCl labelSelector);
  match r with
  | Err err => mret (Retryable err)
  | Ok items => checkReadiness items desiredReadyNodes
  end.

Definition WaitForNodesBecomeReady (kubeCl : KubernetesClient B)
    (nodeGroupName : string) (desiredReadyNodes : Z) : M B (option error) :=
  r ← StartLoop (Sprintf "Waiting for NodeGroup %s to become Ready" [nodeGroupName])
                100 20
                (WaitForNodesBecomeReady_task kubeCl nodeGroupName desiredReadyNodes);
  mret (errorOf r).

(** *** WaitForNodesListBecomeReady *)

(** The loop of lines 157-163: every name is fetched in turn and appended
    to the list; the first failed fetch ends the task. *)
Fixpoint getNodes (kubeCl : KubernetesClient B) (nodes : list string)
    (items : list Node) : M B (result (list Node)) :=
  match nodes with
  | [] => mret (Ok items)
  | nodeName :: rest =>
      r ← call (CallNodesGet nodeName) (Nodes_Get kubeCl nodeName);
      match r with
      | Err err => mret (Err err)
      | Ok node => getNodes kubeCl rest (items ++ [node])
      end
  end.

Definition WaitForNodesListBecomeReady_task (kubeCl : KubernetesClient B)
    (nodes : list string) : M B (Result unit) :=
  let desiredReadyNodes := Z.of_nat (length nodes) in
  r ← getNodes kubeCl nodes [];
  match r with
  | Err err => mret (Retryable err)
  | Ok items => checkReadiness items desiredReadyNodes
  end.

Definition WaitForNodesListBecomeReady (kubeCl : KubernetesClient B)
    (nodes : list string) : M B (option error) :=
  r ← StartLoop (Plain "Waiting for nodes to become Ready") 100 20
                (WaitForNodesListBecomeReady_task kubeCl nodes);
  mret (errorOf r).

(** *** GetNodeGroupTemplates *)

(** Lines 205-208: the map at spec.nodeTemplate, nil when either step is
    missing or not a map. *)
Definition nodeTemplateOf (group : Unstructured) : option (gmap string value) :=
  match Object group !! "spec" with
  | Some (VObject spec) =>
      match spec !! "nodeTemplate" with
      | Some (VObject nodeTemplate) => Some nodeTemplate
      | _ => None
      end
  | _ => None
  end.

(** The task of lines 198-213.  It writes into the captured map only after
    the listing succeeded, and a success ends the loop, so every attempt
    starts from the empty map made at line 196. *)
Definition GetNodeGroupTemplates_task (kubeCl : KubernetesClient B) :
    M B (Result (gmap string (option (gmap string value)))) :=
  r ← call (CallList nodeGroupResource) (Dynamic_List kubeCl nodeGroupResource);
  match r with
  | Err err => mret (Retryable err)
  | Ok nodeGroups =>
      mret (Success
              (foldl (λ nodeTemplates group,
                        <[GetName group := nodeTemplateOf group]> nodeTemplates)
                     ∅ nodeGroups))
  end.

Definition GetNodeGroupTemplates (kubeCl : KubernetesClient B) :
    M B (gmap string (option (gmap string value)) * option error) :=
  r ← StartLoop (Plain "Get NodeGroups node template settings") 10 5
                (GetNodeGroupTemplates_task kubeCl);
  match r with
  | Success nodeTemplates => mret (nodeTemplates, None)
  | Retryable err => mret (∅, Some err)
  end.

(** *** DeleteNode and DeleteNodeGroup *)

Definition DeleteNode_task (kubeCl : KubernetesClient B) (nodeName : string) :
    M B (Result unit) :=
  err ← call (CallNodesDelete nodeName) (Nodes_Delete kubeCl nodeName);
  if IsNotFound err then mret (Success tt)
  else mret (resultOf err).

Definition DeleteNode (kubeCl : KubernetesClient B) (nodeName : string) :
    M B (option error) :=
  r ← StartLoop (Sprintf "Delete Node %s" [nodeName]) 45 10
                (DeleteNode_task kubeCl nodeName);
  mret (errorOf r).

Definition DeleteNodeGroup_task (kubeCl : KubernetesClient B)
    (nodeGroupName : string) : M B (Result unit) :=
  err ← call (CallDelete nodeGroupResource nodeGroupName)
             (Dynamic_Delete kubeCl nodeGroupResource nodeGroupName);
  if IsNotFound err then mret (Success tt)
  else mret (resultOf err).

Definition DeleteNodeGroup (kubeCl : KubernetesClient B)
    (nodeGroupName : string) : M B (option error) :=
  r ← StartLoop (Sprintf "Delete NodeGroup %s" [nodeGroupName]) 45 10
                (DeleteNodeGroup_task kubeCl nodeGroupName);
  mret (errorOf r).

End Converge.

(** ** A small cluster to run the code against *)

Module Fake.

(** The state of a cluster: its nodes, its node groups and its secrets by
    namespace and name. *)
Record Cluster := {
  nodes : list Node;
  nodeGroups : list Unstructured;
  secrets : gmap (string * string) Secret;
}.

Definition notFound (name : string) : error :=
  StatusError StatusReasonNotFound (name +:+ " not found").

Definition alreadyExists (name : string) : error :=
  StatusError StatusReasonAlreadyExists (name +:+ " already exists").

Definition named (name : string) (node : Node) : bool :=
  bool_decide (Name node = name).

Definition groupNamed (name : string) (group : Unstructured) : bool :=
  bool_decide (GetName group = name).

Definition client : KubernetesClient Cluster := {|
  Secrets_Get namespace name c :=
    (match secrets c !! (namespace, name) with
     | Some secret => Ok secret
     | None => Err (notFound name)
     end, c);
  Nodes_Get name c :=
    (match List.find (named name) (nodes c) with
     | Some node => Ok node
     | None => Err (notFound name)
     end, c);
  Nodes_List _ c := (Ok (nodes c), c);
  Nodes_Delete name c :=
    match List.find (named name) (nodes c) with
    | Some _ =>
        (None, {| nodes := List.filter (λ n, negb (named name n)) (nodes c);
                  nodeGroups := nodeGroups c; secrets := secrets c |})
    | None => (Some (notFound name), c)
    end;
  Dynamic_Create _ obj c :=
    match List.find (groupNamed (GetName obj)) (nodeGroups c) with
    | Some _ => (Err (alreadyExists (GetName obj)), c)
    | None =>
        (Ok obj, {| nodes := nodes c; nodeGroups := nodeGroups c ++ [obj];
                    secrets := secrets c |})
    end;
  Dynamic_Patch _ name _ _ c :=
    (match List.find (groupNamed name) (nodeGroups c) with
     | Some group => Ok group
     | None => Err (notFound name)
     end, c);
  Dynamic_List _ c := (Ok (nodeGroups c), c);
  Dynamic_Delete _ name c :=
    match List.find (groupNamed name) (nodeGroups c) with
    | Some _ =>
        (None, {| nodes := nodes c;
                  nodeGroups :=
                    List.filter (λ g, negb (groupNamed name g)) (nodeGroups c);
                  secrets := secrets c |})
    | None => (Some (notFound name), c)
    end;
|}.

(** A client whose every call fails with the same error. *)
Definition broken (err : error) : KubernetesClient unit := {|
  Secrets_Get _ _ b := (Err err, b);
  Nodes_Get _ b := (Err err, b);
  Nodes_List _ b := (Err err, b);
  Nodes_Delete _ b := (Some err, b);
  Dynamic_Create _ _ b := (Err err, b);
  Dynamic_Patch _ _ _ _ b := (Err err, b);
  Dynamic_List _ b := (Err err, b);
  Dynamic_Delete _ _ b := (Some err, b);
|}.

Definition marshal (doc : Unstructured) : result (list byte) :=
  Ok [x7b; x7d]%byte.

Definition start {B} (b : B) : World B := {| backend := b; trace := [] |}.

Definition ready (name : string) : Node :=
  {| Name := name;
     Conditions := [ {| Type_ := "MemoryPressure"; Status := "False" |};
                     {| Type_ := NodeReady; Status := ConditionTrue |} ] |}.

Definition notReady (name : string) : Node :=
  {| Name := name;
     Conditions := [ {| Type_ := NodeReady; Status := "False" |} ] |}.

Definition cluster (ns : list Node) : Cluster :=
  {| nodes := ns; nodeGroups := []; secrets := ∅ |}.

Definition group (name : string) : Unstructured :=
  {| Object := {[ "metadata" := VObject {[ "name" := VString name ]} ]} |}.

End Fake.

(** ** Notions the statements are written with *)

(** A node is ready when its condition list holds a condition of type
    Ready with status True (spec, Node Readiness Record). *)
Definition isReady (node : Node) : bool :=
  existsb (λ c, bool_decide (Type_ c = "Ready") && bool_decide (Status c = "True"))
          (Conditions node).

(** The number of distinct observed nodes that are ready (spec, Readiness
    Snapshot); nodes are told apart by their names. *)
Definition readyCount (observed : list Node) : nat :=
  length (remove_dups (Name <$> List.filter isReady observed)).

(** The leading line and the line of one node of the summary (spec 4.2). *)
Definition summaryHeader (ready : nat) (desiredCount : Z) : string :=
  "Nodes Ready " +:+ pretty ready +:+ " of " +:+ pretty desiredCount +:+ newline.

Definition nodeLine (readyNodes : gset string) (node : Node) : string :=
  "* " +:+ Name node +:+ " | "
    +:+ (if bool_decide (Name node ∈ readyNodes) then "Ready" else "NotReady")
    +:+ newline.

(** Lines put one after the other. *)
Definition joined (lines : list string) : string := foldr String.append "" lines.

(** The attempt numbers the executor reported as failed, in order. *)
Definition reported (tr : list Event) : list nat :=
  omap (λ ev, match ev with AttemptFailed _ i _ => Some i | _ => None end) tr.

(** An attempt function that writes down the outcome of each of its
    invocations: the backend carries the outcomes so far. *)
Definition recorded {B T} (attempt : M B (Result T)) :
    M (list (Result T) * B) (Result T) :=
  λ w, let (r, w') := attempt {| backend := snd (backend w); trace := trace w |} in
       (r, {| backend := (fst (backend w) ++ [r], backend w');
              trace := trace w' |}).

(** An attempt function whose outcome is set by the number of the
    invocation: the backend counts the invocations made. *)
Definition scripted {T} (script : nat → Result T) : M nat (Result T) :=
  λ w, (script (S (backend w)),
        {| backend := S (backend w); trace := trace w |}).

Definition failing {T} (r : Result T) : Prop := isSuccess r = false.

(** A computation that neither sleeps nor reports a failed attempt: it
    leaves the executor's own events of the trace as they are. *)
Definition quiet {B A} (m : M B A) : Prop :=
  ∀ w, sleeps (trace (snd (m w))) = sleeps (trace w)
       ∧ reported (trace (snd (m w))) = reported (trace w).

Definition ofExecutor (ev : Event) : bool :=
  match ev with
  | Sleep _ | AttemptFailed _ _ _ => true
  | _ => false
  end.

(** An operation that spends a whole budget: from any world it sleeps
    [attempts - 1] times, [interval] seconds each, and reports the failed
    attempts 1 to [attempts]. *)
Definition exhausts {B A} (op : M B A) (attempts : nat) (interval : N) : Prop :=
  ∀ w, sleeps (trace (snd (op w)))
         = sleeps (trace w) ++ replicate (attempts - 1) interval
       ∧ reported (trace (snd (op w))) = reported (trace w) ++ seq 1 attempts.

(** * Properties *)

Ltac unfold_M := unfold mbind, M_bind, mret, M_ret, call, emit in *.

(** ** Text *)

Example EncodeToString_foobar :
  EncodeToString [x66; x6f; x6f; x62; x61; x72]%byte = "Zm9vYmFy"
  ∧ EncodeToString [x66; x6f; x6f; x62; x61]%byte = "Zm9vYmE="
  ∧ EncodeToString [x66; x6f; x6f; x62]%byte = "Zm9vYg=="
  ∧ EncodeToString [] = "".
Proof. repeat split; reflexivity. Qed.

Lemma append_String (a : ascii) (s t : string) :
  String a s +:+ t = String a (s +:+ t).
Proof. reflexivity. Qed.

Lemma append_assoc (s t u : string) : (s +:+ t) +:+ u = s +:+ (t +:+ u).
Proof.
  induction s as [|a s IH]; [done|]. rewrite !append_String. by rewrite IH.
Qed.






(** ** The bounded retry executor *)

Section Executor.
Context {B T : Type}.
Implicit Types (attempt : M B (Result T)) (w : World B).

Lemma loop_unfold label policy attempt i more :
  loop label policy attempt i more =
    (r ← attempt;
     match r with
     | Success v => mret (Success v)
     | Retryable err =>
         (if silent policy then mret tt
          else emit (AttemptFailed label i err));;
         match more with
         | 0 => mret (Retryable err)
         | S more' =>
             emit (Sleep (intervalSeconds policy));;
             loop label policy attempt (S i) more'
         end
     end).
Proof. destruct more; reflexivity. Qed.

(** An attempt function that fails whenever it is invoked exhausts the
    executor, which then fails too. *)
Lemma loop_always_fails label policy attempt i more w :
  (∀ w', failing (fst (attempt w'))) →
  failing (fst (loop label policy attempt i more w)).
Proof.
  intros Hfail. revert i w.
  induction more as [|more IH]; intros i w; rewrite loop_unfold; unfold_M;
    specialize (Hfail w); destruct (attempt w) as [[v|err] w1]; simpl in *;
    try discriminate; destruct (silent policy); simpl; try done; apply IH.
Qed.

(** The sleeps and the reports of an exhausted run, for an attempt
    function that neither sleeps nor reports by itself. *)
Lemma loop_exhausted label policy attempt i more w :
  (∀ w', failing (fst (attempt w'))) →
  quiet attempt →
  sleeps (trace (snd (loop label policy attempt i more w)))
    = sleeps (trace w) ++ replicate more (intervalSeconds policy)
  ∧ (silent policy = false →
     reported (trace (snd (loop label policy attempt i more w)))
       = reported (trace w) ++ seq i (S more)).
Proof.
  intros Hfail Hquiet. revert i w.
  induction more as [|more IH]; intros i w; rewrite loop_unfold; unfold_M;
    specialize (Hfail w); destruct (Hquiet w) as [Hs Hr];
    destruct (attempt w) as [[v|err] w1]; simpl in *; try discriminate.
  - destruct (silent policy); simpl; unfold sleeps, reported in *;
      rewrite ?omap_app; simpl; rewrite ?app_nil_r; split; congruence.
  - destruct (silent policy); simpl;
      match goal with |- context [loop _ _ _ _ _ ?w0] =>
        destruct (IH (S i) w0) as [IHs IHr] end;
      rewrite IHs; simpl; unfold sleeps, reported in *;
      rewrite ?omap_app; simpl; rewrite ?app_nil_r, Hs;
      (split; [by rewrite <- app_assoc|]); intros Hsil; try discriminate.
    rewrite (IHr Hsil). simpl. rewrite !omap_app. simpl.
    rewrite app_nil_r, Hr. by rewrite <- app_assoc.
Qed.

End Executor.

Lemma recorded_outcome {B T} (attempt : M B (Result T)) w :
  fst (backend (snd (recorded attempt w)))
    = fst (backend w) ++ [fst (recorded attempt w)]
  ∧ fst (recorded attempt w)
    = fst (attempt {| backend := snd (backend w); trace := trace w |}).
Proof. unfold recorded. by destruct (attempt _). Qed.

(** What the invocations of a run look like: every invocation but the last
    failed, the last one's outcome is the run's, there are at most
    [more + 1] of them, and exactly that many when the run fails. *)
Lemma loop_recorded {B T} label policy (attempt : M B (Result T)) i more
    (w : World (list (Result T) * B)) :
  ∃ fails,
    fst (backend (snd (loop label policy (recorded attempt) i more w)))
      = fst (backend w) ++ fails
          ++ [fst (loop label policy (recorded attempt) i more w)]
    ∧ Forall failing fails
    ∧ length fails ≤ more
    ∧ (failing (fst (loop label policy (recorded attempt) i more w)) →
       length fails = more).
Proof.
  revert i w.
  induction more as [|more IH]; intros i w; rewrite loop_unfold; unfold_M;
    destruct (recorded_outcome attempt w) as [Hlog _];
    destruct (recorded attempt w) as [[v|err] w1]; simpl in *.
  - exists []. simpl. repeat split; auto; try lia; discriminate.
  - exists []. destruct (silent policy); simpl; repeat split; auto.
  - exists []. simpl. repeat split; auto; try lia; discriminate.
  - destruct (silent policy); simpl;
      match goal with |- context [loop _ _ _ _ _ ?w0] =>
        destruct (IH (S i) w0) as (fails & Hlog' & Hall & Hlen & Hm) end;
      simpl in *; exists (Retryable err :: fails);
      (split; [rewrite Hlog', Hlog; by rewrite <- app_assoc|]);
      (split; [by constructor|]); simpl; (split; [lia|]);
      intros Hf; by rewrite (Hm Hf).
Qed.

Lemma scripted_eq {T} (script : nat → Result T) (c : nat) (tr : list Event) :
  scripted script {| backend := c; trace := tr |}
  = (script (S c), {| backend := S c; trace := tr |}).
Proof. reflexivity. Qed.

(** The executor on an attempt function whose outcomes follow a script,
    started when [c] invocations were made: if the first success of the
    script from there comes after [n] failures, within the attempts left,
    the executor returns it after [n + 1] invocations and [n] sleeps; if
    the script fails throughout the attempts left, the executor makes them
    all and returns the outcome of the last. *)
Lemma loop_scripted {T} (label : text) (policy : AttemptPolicy)
    (script : nat → Result T) (more i c : nat) (tr : list Event) :
  (∀ n v,
     n ≤ more →
     (∀ j, j < n → failing (script (S (c + j)))) →
     script (S (c + n)) = Success v →
     loop label policy (scripted script) i more {| backend := c; trace := tr |}
       = (Success v,
          snd (loop label policy (scripted script) i more
                 {| backend := c; trace := tr |}))
     ∧ backend (snd (loop label policy (scripted script) i more
                       {| backend := c; trace := tr |})) = S (c + n)
     ∧ sleeps (trace (snd (loop label policy (scripted script) i more
                             {| backend := c; trace := tr |})))
       = sleeps tr ++ replicate n (intervalSeconds policy))
  ∧ ((∀ j, j ≤ more → failing (script (S (c + j)))) →
     fst (loop label policy (scripted script) i more
            {| backend := c; trace := tr |}) = script (S (c + more))
     ∧ backend (snd (loop label policy (scripted script) i more
                       {| backend := c; trace := tr |})) = S (c + more)
     ∧ sleeps (trace (snd (loop label policy (scripted script) i more
                             {| backend := c; trace := tr |})))
       = sleeps tr ++ replicate more (intervalSeconds policy)).
Proof.
  revert i c tr. induction more as [|more IH]; intros i c tr.
  - split.
    + intros n v Hn Hfails Hv. assert (n = 0) as -> by lia.
      rewrite Nat.add_0_r in Hv. rewrite loop_unfold. unfold_M.
      rewrite scripted_eq, Hv. simpl.
      by rewrite Nat.add_0_r, app_nil_r.
    + intros Hfails. specialize (Hfails 0 (Nat.le_refl _)).
      rewrite Nat.add_0_r in *. rewrite loop_unfold. unfold_M.
      rewrite scripted_eq.
      destruct (script (S c)) as [v|err]; [discriminate|].
      destruct (silent policy); simpl; unfold sleeps; rewrite ?omap_app;
        simpl; by rewrite !app_nil_r.
  - split.
    + intros n v Hn Hfails Hv. rewrite loop_unfold. unfold_M.
      rewrite scripted_eq.
      destruct n as [|n].
      * rewrite Nat.add_0_r in Hv. rewrite Hv. simpl.
        by rewrite Nat.add_0_r, app_nil_r.
      * pose proof (Hfails 0 (Nat.lt_0_succ _)) as H0.
        rewrite Nat.add_0_r in H0.
        destruct (script (S c)) as [v0|err]; [discriminate|].
        assert (∀ tr',
                  sleeps (tr' ++ [Sleep (intervalSeconds policy)])
                  = sleeps tr' ++ [intervalSeconds policy]) as Hsl.
        { intros tr'. unfold sleeps. by rewrite omap_app. }
        destruct (silent policy); simpl;
          match goal with |- context [loop _ _ _ ?i' more
                                        {| backend := _; trace := ?tr' |}] =>
            destruct (IH i' (S c) tr') as [IHs _];
            destruct (IHs n v) as (Hr & Hb & Hs);
              [lia
              |intros j Hj; replace (S c + j) with (c + S j) by lia;
               apply Hfails; lia
              |by replace (S c + n) with (c + S n) by lia
              |]
          end;
          rewrite Hb, Hs, Hsl;
          (split; [exact Hr|]); (split; [f_equal; lia|]);
          unfold sleeps; rewrite ?omap_app; simpl; rewrite ?app_nil_r;
          by rewrite <- app_assoc.
    + intros Hfails. rewrite loop_unfold. unfold_M.
      rewrite scripted_eq.
      pose proof (Hfails 0 (Nat.le_0_l _)) as H0. rewrite Nat.add_0_r in H0.
      destruct (script (S c)) as [v0|err]; [discriminate|].
      assert (∀ tr',
                sleeps (tr' ++ [Sleep (intervalSeconds policy)])
                = sleeps tr' ++ [intervalSeconds policy]) as Hsl.
      { intros tr'. unfold sleeps. by rewrite omap_app. }
      destruct (silent policy); simpl;
        match goal with |- context [loop _ _ _ ?i' more
                                      {| backend := _; trace := ?tr' |}] =>
          destruct (IH i' (S c) tr') as [_ IHf];
          destruct IHf as (Hr & Hb & Hs);
            [intros j Hj; replace (S c + j) with (c + S j) by lia;
             apply Hfails; lia|]
        end;
        rewrite Hr, Hb, Hs, Hsl;
        (split; [f_equal; lia|]); (split; [f_equal; lia|]);
        unfold sleeps; rewrite ?omap_app; simpl; rewrite ?app_nil_r;
        by rewrite <- app_assoc.
Qed.

(** C7.  Under a policy with maxAttempts = m (a positive number), the
    executor invokes the attempt function at least once and at most m times;
    every invocation but the last failed and the outcome of the last one is
    what the executor returns; a run that returns a failure has made all m
    invocations.  If the attempt function fails at every invocation there
    are exactly m invocations and the error returned is the one of
    invocation m; if invocation k+1 succeeds there are exactly k+1
    invocations and that success is returned.  The invocations are counted
    by [recorded], which writes their outcomes down in order.  For an
    attempt function whose outcome at the j-th invocation is [script j]:
    when the script first succeeds at try k <= m the executor returns that
    success after exactly k invocations and k - 1 sleeps; when it fails at
    tries 1 to m the executor returns the error of try m after exactly m
    invocations and m - 1 sleeps. *)
Theorem run_invocations {B T} (label : text) (policy : AttemptPolicy)
    (attempt : M B (Result T)) (b : B) (tr : list Event) :
  let m := Pos.to_nat (maxAttempts policy) in
  let out := run label policy (recorded attempt)
                 {| backend := ([], b); trace := tr |} in
  let outcomes := fst (backend (snd out)) in
  last outcomes = Some (fst out)
  ∧ (∀ k r, S k < length outcomes → outcomes !! k = Some r → failing r)
  ∧ 1 ≤ length outcomes ≤ m
  ∧ (failing (fst out) → length outcomes = m)
  ∧ ((∀ w, failing (fst (attempt w))) →
     length outcomes = m
     ∧ ∃ err, fst out = Retryable err
              ∧ outcomes !! (m - 1) = Some (Retryable err))
  ∧ (∀ k v, outcomes !! k = Some (Success v) →
     length outcomes = S k ∧ fst out = Success v)
  ∧ (∀ (script : nat → Result T) k v,
       1 ≤ k ≤ m →
       (∀ j, 1 ≤ j < k → failing (script j)) →
       script k = Success v →
       let scripted_out := run label policy (scripted script)
                               {| backend := 0; trace := tr |} in
       fst scripted_out = Success v
       ∧ backend (snd scripted_out) = k
       ∧ sleeps (trace (snd scripted_out))
         = sleeps tr ++ replicate (k - 1) (intervalSeconds policy))
  ∧ (∀ (script : nat → Result T),
       (∀ j, 1 ≤ j ≤ m → failing (script j)) →
       let scripted_out := run label policy (scripted script)
                               {| backend := 0; trace := tr |} in
       fst scripted_out = script m
       ∧ backend (snd scripted_out) = m
       ∧ sleeps (trace (snd scripted_out))
         = sleeps tr ++ replicate (m - 1) (intervalSeconds policy)).
Proof.
  intros m out outcomes. subst outcomes out. unfold run.
  pose proof (Pos2Nat.is_pos (maxAttempts policy)) as Hpos. fold m in Hpos.
  fold m.
  destruct (loop_recorded label policy attempt 1 (m - 1)
              {| backend := ([], b); trace := tr |})
    as (fails & Hlog & Hall & Hlen & Hm).
  simpl in Hlog. rewrite Hlog.
  set (r := fst (loop label policy (recorded attempt) 1 (m - 1)
                   {| backend := ([], b); trace := tr |})) in *.
  rewrite length_app. simpl.
  split; [apply last_snoc|].
  split.
  { intros k r' Hk Hr'. rewrite lookup_app_l in Hr' by lia.
    rewrite Forall_forall in Hall. apply Hall.
    by apply list_elem_of_lookup_2 with k. }
  split; [lia|].
  split; [intros Hr; specialize (Hm Hr); lia|].
  split.
  { intros Hfail.
    assert (failing r) as Hr.
    { apply loop_always_fails. intros w'.
      destruct (recorded_outcome attempt w') as [_ ->]. apply Hfail. }
    specialize (Hm Hr). split; [lia|].
    destruct r as [v|err] eqn:Er; [discriminate|].
    exists err. split; [done|].
    rewrite lookup_app_r by lia. by replace (m - 1 - length fails) with 0 by lia. }
  split.
  { intros k v Hk.
    destruct (decide (k < length fails)) as [Hlt|Hge].
    + rewrite lookup_app_l in Hk by done.
      rewrite Forall_forall in Hall.
      apply list_elem_of_lookup_2, Hall in Hk. discriminate.
    + rewrite lookup_app_r in Hk by lia.
      destruct (k - length fails) as [|n] eqn:En; simpl in Hk; [|done].
      split; [lia|congruence]. }
  split.
  - intros script k v Hk Hfails Hv. cbv zeta.
    destruct (loop_scripted label policy script (m - 1) 1 0 tr) as [Hs _].
    destruct (Hs (k - 1) v) as (Hr & Hb & Hsl); [lia| | |].
    + intros j Hj. apply Hfails. lia.
    + by replace (S (0 + (k - 1))) with k by lia.
    + rewrite Hr at 1. rewrite Hb, Hsl. simpl.
      split; [done|]. split; [lia|done].
  - intros script Hfails. cbv zeta.
    destruct (loop_scripted label policy script (m - 1) 1 0 tr) as [_ Hf].
    destruct Hf as (Hr & Hb & Hsl).
    + intros j Hj. apply Hfails. lia.
    + rewrite Hr, Hb, Hsl. simpl.
      split; [f_equal; lia|]. split; [lia|done].
Qed.

(** The third invocation of three is the first to succeed: the executor
    returns its value after three invocations and two sleeps. *)
Example run_third_attempt :
  run (Plain "scenario")
      {| maxAttempts := 3; intervalSeconds := 0; silent := false |}
      (scripted (λ k, if decide (k < 3) then Retryable (errorString "not yet")
                      else Success k))
      {| backend := 0; trace := [] |}
  = (Success 3,
     {| backend := 3;
        trace := [AttemptFailed (Plain "scenario") 1 (errorString "not yet");
                  Sleep 0;
                  AttemptFailed (Plain "scenario") 2 (errorString "not yet");
                  Sleep 0] |}).
Proof. reflexivity. Qed.

(** An instance of [run_invocations]: an attempt function that always fails,
    under a budget of four attempts, and a script that fails once and then
    succeeds. *)
Lemma run_invocations_witness :
  let policy := {| maxAttempts := 4; intervalSeconds := 7; silent := true |} in
  let out := run (Plain "always failing") policy
                 (recorded (scripted (λ k, Retryable (T := unit) (errorString (pretty k)))))
                 {| backend := ([], 0); trace := [] |} in
  let script := λ k, if decide (k < 2) then Retryable (errorString "not yet")
                     else Success tt in
  let scripted_out := run (Plain "always failing") policy (scripted script)
                          {| backend := 0; trace := [] |} in
  (length (fst (backend (snd out))) = 4
   ∧ ∃ err, fst out = Retryable err
            ∧ fst (backend (snd out)) !! 3 = Some (Retryable err))
  ∧ fst scripted_out = Success tt
  ∧ backend (snd scripted_out) = 2
  ∧ sleeps (trace (snd scripted_out)) = [7%N].
Proof.
  intros policy out script scripted_out.
  destruct (run_invocations (Plain "always failing") policy
              (scripted (λ k, Retryable (T := unit) (errorString (pretty k)))) 0 [])
    as (_ & _ & _ & _ & Hfail & _ & Hscript & _).
  split.
  - apply Hfail. intros w. reflexivity.
  - apply (Hscript script 2 tt).
    + vm_compute. lia.
    + intros j Hj. assert (j = 1) as -> by lia. reflexivity.
    + reflexivity.
Defined.

(** ** Computations that leave the executor's events alone *)

Section Quiet.
Context {B : Type}.

Lemma quiet_ret {A} (a : A) : quiet (B := B) (mret a).
Proof. by intros w. Qed.

Lemma quiet_bind {A C} (m : M B A) (f : A → M B C) :
  quiet m → (∀ a, quiet (f a)) → quiet (m ≫= f).
Proof.
  intros Hm Hf w. unfold_M. destruct (Hm w) as [Hs Hr].
  destruct (m w) as [a w1]. simpl in *.
  destruct (Hf a w1) as [Hs' Hr']. split; congruence.
Qed.

Lemma quiet_trace (ev : Event) (tr : list Event) :
  ofExecutor ev = false →
  sleeps (tr ++ [ev]) = sleeps tr ∧ reported (tr ++ [ev]) = reported tr.
Proof.
  intros Hev. unfold sleeps, reported. rewrite !omap_app.
  destruct ev; simpl in *; try discriminate; by rewrite !app_nil_r.
Qed.

Lemma quiet_emit (ev : Event) : ofExecutor ev = false → quiet (B := B) (emit ev).
Proof. intros Hev w. by apply quiet_trace. Qed.

Lemma quiet_call {A} (ev : Event) (f : B → A * B) :
  ofExecutor ev = false → quiet (call ev f).
Proof.
  intros Hev w. unfold call. destruct (f (backend w)). by apply quiet_trace.
Qed.

End Quiet.

Ltac quiet_step :=
  first
    [ apply quiet_ret
    | apply quiet_emit; reflexivity
    | apply quiet_call; reflexivity
    | apply quiet_bind; [|intros ?]
    | match goal with
      | |- quiet (match ?x with _ => _ end) => destruct x
      | |- quiet (if ?x then _ else _) => destruct x
      end ].

Lemma StartLoop_exhausted {B T A} (name : text) (attemptsQuantity : positive)
    (waitSeconds : N) (task : M B (Result T)) (finish : Result T → M B A) :
  (∀ w, failing (fst (task w))) →
  quiet task →
  (∀ r, quiet (finish r)) →
  exhausts (StartLoop name attemptsQuantity waitSeconds task ≫= finish)
           (Pos.to_nat attemptsQuantity) waitSeconds.
Proof.
  intros Hfail Htask Hfinish w. unfold StartLoop, run. simpl.
  pose proof (Pos2Nat.is_pos attemptsQuantity) as Hpos.
  set (policy := {| maxAttempts := attemptsQuantity;
                    intervalSeconds := waitSeconds; silent := false |}).
  destruct (loop_exhausted name policy task 1
              (Pos.to_nat attemptsQuantity - 1) w Hfail Htask) as [Hs Hr].
  specialize (Hr eq_refl).
  replace (S (Pos.to_nat attemptsQuantity - 1))
    with (Pos.to_nat attemptsQuantity) in Hr by lia.
  unfold_M. destruct (loop name policy task 1 _ w) as [r w1]. simpl in *.
  destruct (Hfinish r w1) as [Hs' Hr']. split; congruence.
Qed.

Section Tasks.
Context {B : Type} (MarshalJSON : Unstructured → result (list byte))
        (kubeCl : KubernetesClient B).


Lemma CreateNodeGroup_task_quiet doc :
  quiet (CreateNodeGroup_task MarshalJSON kubeCl doc).
Proof. unfold CreateNodeGroup_task. repeat quiet_step. Qed.

Lemma WaitForSingleNodeBecomeReady_task_quiet name :
  quiet (WaitForSingleNodeBecomeReady_task kubeCl name).
Proof. unfold WaitForSingleNodeBecomeReady_task. repeat quiet_step. Qed.

Lemma checkReadiness_quiet items desired :
  quiet (B := B) (checkReadiness items desired).
Proof. unfold checkReadiness. repeat quiet_step. Qed.

Lemma WaitForNodesBecomeReady_task_quiet name desired :
  quiet (WaitForNodesBecomeReady_task kubeCl name desired).
Proof.
  unfold WaitForNodesBecomeReady_task.
  repeat quiet_step; apply checkReadiness_quiet.
Qed.

Lemma getNodes_quiet nodes items : quiet (getNodes kubeCl nodes items).
Proof.
  revert items. induction nodes as [|name rest IH]; intros items; simpl.
  - apply quiet_ret.
  - repeat quiet_step. apply IH.
Qed.

Lemma WaitForNodesListBecomeReady_task_quiet nodes :
  quiet (WaitForNodesListBecomeReady_task kubeCl nodes).
Proof.
  unfold WaitForNodesListBecomeReady_task.
  apply quiet_bind; [apply getNodes_quiet|].
  intros [items|err]; [apply checkReadiness_quiet | apply quiet_ret].
Qed.

Lemma GetNodeGroupTemplates_task_quiet :
  quiet (GetNodeGroupTemplates_task kubeCl).
Proof. unfold GetNodeGroupTemplates_task. repeat quiet_step. Qed.

Lemma DeleteNode_task_quiet name : quiet (DeleteNode_task kubeCl name).
Proof. unfold DeleteNode_task. repeat quiet_step. Qed.

Lemma DeleteNodeGroup_task_quiet name : quiet (DeleteNodeGroup_task kubeCl name).
Proof. unfold DeleteNodeGroup_task. repeat quiet_step. Qed.

End Tasks.

(** ** The attempt policies of the operations *)

(** C8.  Every operation runs its task under its own fixed policy.  Seen
    from outside: when the task fails at every attempt, the node-group
    upsert makes 45 attempts 15 seconds apart, the two deletions 45 attempts
    10 seconds apart, the template listing 10 attempts 5 seconds apart, and
    each of the three readiness waits 100 attempts 20 seconds apart. *)
Theorem fixed_attempt_policies {B} (MarshalJSON : Unstructured → result (list byte))
    (kubeCl : KubernetesClient B) :
  (∀ nodeGroupName data,
     (∀ w, failing (fst (CreateNodeGroup_task MarshalJSON kubeCl
                           {| Object := data |} w))) →
     exhausts (CreateNodeGroup MarshalJSON kubeCl nodeGroupName data) 45 15)
  ∧ (∀ nodeName,
       (∀ w, failing (fst (DeleteNode_task kubeCl nodeName w))) →
       exhausts (DeleteNode kubeCl nodeName) 45 10)
  ∧ (∀ nodeGroupName,
       (∀ w, failing (fst (DeleteNodeGroup_task kubeCl nodeGroupName w))) →
       exhausts (DeleteNodeGroup kubeCl nodeGroupName) 45 10)
  ∧ ((∀ w, failing (fst (GetNodeGroupTemplates_task kubeCl w))) →
     exhausts (GetNodeGroupTemplates kubeCl) 10 5)
  ∧ (∀ nodeName,
       (∀ w, failing (fst (WaitForSingleNodeBecomeReady_task kubeCl nodeName w))) →
       exhausts (WaitForSingleNodeBecomeReady kubeCl nodeName) 100 20)
  ∧ (∀ nodeGroupName desiredReadyNodes,
       (∀ w, failing (fst (WaitForNodesBecomeReady_task kubeCl nodeGroupName
                             desiredReadyNodes w))) →
       exhausts (WaitForNodesBecomeReady kubeCl nodeGroupName desiredReadyNodes)
                100 20)
  ∧ (∀ nodes,
       (∀ w, failing (fst (WaitForNodesListBecomeReady_task kubeCl nodes w))) →
       exhausts (WaitForNodesListBecomeReady kubeCl nodes) 100 20).
Proof.
  repeat apply conj; intros;
    match goal with
    | |- exhausts _ ?n ?d =>
        let p := eval vm_compute in (Pos.of_nat n) in
        change n with (Pos.to_nat p)
    end.
  - apply StartLoop_exhausted;
      [done | apply CreateNodeGroup_task_quiet | intros; apply quiet_ret].
  - apply StartLoop_exhausted;
      [done | apply DeleteNode_task_quiet | intros; apply quiet_ret].
  - apply StartLoop_exhausted;
      [done | apply DeleteNodeGroup_task_quiet | intros; apply quiet_ret].
  - apply StartLoop_exhausted;
      [done | apply GetNodeGroupTemplates_task_quiet
      | intros []; apply quiet_ret].
  - apply StartLoop_exhausted;
      [done | apply WaitForSingleNodeBecomeReady_task_quiet
      | intros; apply quiet_ret].
  - apply StartLoop_exhausted;
      [done | apply WaitForNodesBecomeReady_task_quiet | intros; apply quiet_ret].
  - apply StartLoop_exhausted;
      [done | apply WaitForNodesListBecomeReady_task_quiet
      | intros; apply quiet_ret].
Qed.

(** An instance of [fixed_attempt_policies]: a client whose every call is
    answered "already exists", so that no attempt of any operation succeeds. *)
Lemma fixed_attempt_policies_witness :
  let kubeCl := Fake.broken (Fake.alreadyExists "ng-1") in
  exhausts (CreateNodeGroup Fake.marshal kubeCl "ng-1" ∅) 45 15
  ∧ exhausts (DeleteNode kubeCl "node-1") 45 10
  ∧ exhausts (DeleteNodeGroup kubeCl "ng-1") 45 10
  ∧ exhausts (GetNodeGroupTemplates kubeCl) 10 5
  ∧ exhausts (WaitForSingleNodeBecomeReady kubeCl "node-1") 100 20
  ∧ exhausts (WaitForNodesBecomeReady kubeCl "ng-1" 3) 100 20
  ∧ exhausts (WaitForNodesListBecomeReady kubeCl ["node-1"; "node-2"]) 100 20.
Proof.
  intros kubeCl.
  destruct (fixed_attempt_policies Fake.marshal kubeCl)
    as (H1 & H2 & H3 & H4 & H5 & H6 & H7).
  repeat apply conj;
    [ apply H1 | apply H2 | apply H3 | apply H4 | apply H5 | apply H6
    | apply H7 ]; intros w; reflexivity.
Defined.

(** ** Single attempts *)

Lemma StartLoop_first_success {B T} (name : text) (attemptsQuantity : positive)
    (waitSeconds : N) (task : M B (Result T)) (w : World B) (v : T) :
  fst (task w) = Success v →
  StartLoop name attemptsQuantity waitSeconds task w = (Success v, snd (task w)).
Proof.
  intros Hv. unfold StartLoop, run. rewrite loop_unfold. unfold_M.
  destruct (task w) as [r w1]. simpl in *. by subst r.
Qed.

Lemma IsNotFound_spec (err : error) :
  IsNotFound (Some err) = true ↔ ∃ message, err = StatusError "NotFound" message.
Proof.
  unfold IsNotFound. rewrite bool_decide_eq_true. split.
  - destruct err as [reason message| |]; simpl; try discriminate.
    intros ->. by exists message.
  - by intros [message ->].
Qed.

Lemma IsAlreadyExists_spec (err : error) :
  IsAlreadyExists (Some err) = true
  ↔ ∃ message, err = StatusError "AlreadyExists" message.
Proof.
  unfold IsAlreadyExists. rewrite bool_decide_eq_true. split.
  - destruct err as [reason message| |]; simpl; try discriminate.
    intros ->. by exists message.
  - by intros [message ->].
Qed.

Lemma readyCondition_isReady (node : Node) :
  readyCondition (Conditions node) = isReady node.
Proof.
  unfold isReady. induction (Conditions node) as [|c rest IH]; simpl; [done|].
  rewrite IH. by repeat case_bool_decide.
Qed.

Lemma isReady_spec (node : Node) :
  isReady node = true
  ↔ ∃ c, c ∈ Conditions node ∧ Type_ c = "Ready" ∧ Status c = "True".
Proof.
  unfold isReady. rewrite existsb_exists. split.
  - intros (c & Hin & Hc). apply andb_true_iff in Hc as [Ht Hs].
    apply bool_decide_eq_true in Ht, Hs. exists c.
    by rewrite list_elem_of_In.
  - intros (c & Hin & Ht & Hs). exists c. rewrite <- list_elem_of_In.
    split; [done|]. by rewrite !bool_decide_eq_true_2.
Qed.

(** C2.  One attempt of a deletion, of a node or of a node group: when the
    backend answers "not found" the attempt succeeds, when it answers with
    any other error that error is the attempt's failure, and when it answers
    without error the attempt succeeds.  Deleting a name that is already
    absent therefore makes the whole operation return nil on its first
    attempt. *)
Theorem delete_attempt {B} (kubeCl : KubernetesClient B) (name : string)
    (w : World B) :
  fst (DeleteNode_task kubeCl name w)
    = match fst (Nodes_Delete kubeCl name (backend w)) with
      | None => Success tt
      | Some err => if IsNotFound (Some err) then Success tt else Retryable err
      end
  ∧ fst (DeleteNodeGroup_task kubeCl name w)
    = match fst (Dynamic_Delete kubeCl nodeGroupResource name (backend w)) with
      | None => Success tt
      | Some err => if IsNotFound (Some err) then Success tt else Retryable err
      end
  ∧ (∀ message,
       fst (Nodes_Delete kubeCl name (backend w))
         = Some (StatusError "NotFound" message) →
       fst (DeleteNode kubeCl name w) = None)
  ∧ (∀ message,
       fst (Dynamic_Delete kubeCl nodeGroupResource name (backend w))
         = Some (StatusError "NotFound" message) →
       fst (DeleteNodeGroup kubeCl name w) = None).
Proof.
  assert (fst (DeleteNode_task kubeCl name w)
          = match fst (Nodes_Delete kubeCl name (backend w)) with
            | None => Success tt
            | Some err =>
                if IsNotFound (Some err) then Success tt else Retryable err
            end) as Hnode.
  { unfold DeleteNode_task. unfold_M.
    destruct (Nodes_Delete kubeCl name (backend w)) as [[err|] b]; simpl;
      [by destruct (IsNotFound (Some err))|done]. }
  assert (fst (DeleteNodeGroup_task kubeCl name w)
          = match fst (Dynamic_Delete kubeCl nodeGroupResource name (backend w)) with
            | None => Success tt
            | Some err =>
                if IsNotFound (Some err) then Success tt else Retryable err
            end) as Hgroup.
  { unfold DeleteNodeGroup_task. unfold_M.
    destruct (Dynamic_Delete kubeCl nodeGroupResource name (backend w))
      as [[err|] b]; simpl; [by destruct (IsNotFound (Some err))|done]. }
  repeat apply conj; [done|done| |]; intros message Hnf.
  - rewrite Hnf in Hnode. simpl in Hnode.
    unfold DeleteNode. unfold mbind at 1. unfold M_bind.
    by rewrite (StartLoop_first_success _ _ _ _ _ tt Hnode).
  - rewrite Hnf in Hgroup. simpl in Hgroup.
    unfold DeleteNodeGroup. unfold mbind at 1. unfold M_bind.
    by rewrite (StartLoop_first_success _ _ _ _ _ tt Hgroup).
Qed.

(** An instance of [delete_attempt]: a cluster without nodes and without
    node groups. *)
Lemma delete_attempt_witness :
  fst (DeleteNode Fake.client "node-1" (Fake.start (Fake.cluster []))) = None
  ∧ fst (DeleteNodeGroup Fake.client "ng-1" (Fake.start (Fake.cluster []))) = None.
Proof.
  destruct (delete_attempt Fake.client "node-1" (Fake.start (Fake.cluster [])))
    as (_ & _ & Hnode & _).
  destruct (delete_attempt Fake.client "ng-1" (Fake.start (Fake.cluster [])))
    as (_ & _ & _ & Hgroup).
  split; [eapply Hnode | eapply Hgroup]; reflexivity.
Defined.

(** C5.  One attempt of the wait for a single node fetches the named node
    once.  A failed fetch is the attempt's failure with the fetch's error,
    "not found" like any other; a fetched node that is not ready fails the
    attempt with the not-Ready error; the attempt succeeds exactly when the
    fetched node has a condition of type Ready with status True.  The wait
    runs these attempts under the policy of 100 attempts, 20 seconds
    apart. *)
Theorem single_node_attempt {B} (kubeCl : KubernetesClient B)
    (nodeName : string) (w : World B) :
  fst (WaitForSingleNodeBecomeReady_task kubeCl nodeName w)
    = match fst (Nodes_Get kubeCl nodeName (backend w)) with
      | Err err => Retryable err
      | Ok node =>
          if isReady node then Success tt
          else Retryable (Errorf "node %q is not Ready yet" [nodeName])
      end
  ∧ trace (snd (WaitForSingleNodeBecomeReady_task kubeCl nodeName w))
    = trace w ++ [CallNodesGet nodeName]
  ∧ (isSuccess (fst (WaitForSingleNodeBecomeReady_task kubeCl nodeName w)) = true
     ↔ ∃ node, fst (Nodes_Get kubeCl nodeName (backend w)) = Ok node
               ∧ ∃ c, c ∈ Conditions node
                      ∧ Type_ c = "Ready" ∧ Status c = "True")
  ∧ WaitForSingleNodeBecomeReady kubeCl nodeName
    = (r ← run (Sprintf "Waiting for  Node %s to become Ready" [nodeName])
               {| maxAttempts := 100; intervalSeconds := 20; silent := false |}
               (WaitForSingleNodeBecomeReady_task kubeCl nodeName);
       mret (errorOf r)).
Proof.
  unfold WaitForSingleNodeBecomeReady_task. unfold_M.
  destruct (Nodes_Get kubeCl nodeName (backend w)) as [[node|err] b]; simpl.
  - rewrite readyCondition_isReady.
    split; [by destruct (isReady node)|].
    split; [by destruct (isReady node)|].
    split; [|done].
    destruct (isReady node) eqn:Hready; simpl.
    + split; [|done]. intros _. exists node. split; [done|].
      by apply isReady_spec.
    + split; [done|]. intros (node' & [= <-] & Hc).
      apply (proj2 (isReady_spec node)) in Hc. congruence.
  - split; [done|]. split; [done|]. split; [|done].
    split; [done|]. by intros (node & [=] & _).
Qed.

(** A node that does not exist: every one of the 100 attempts fetches it and
    fails with "not found", nothing ends the wait early. *)
Example single_node_not_found :
  let out := WaitForSingleNodeBecomeReady Fake.client "node-1"
               (Fake.start (Fake.cluster [Fake.ready "node-2"])) in
  fst out = Some (Fake.notFound "node-1")
  ∧ calls (trace (snd out)) = replicate 100 (CallNodesGet "node-1")
  ∧ sleeps (trace (snd out)) = replicate 99 20%N.
Proof. vm_compute. done. Qed.

(** ** GetCloudConfig *)

(** C10.  When the bootstrap secret of the group exists and its data has no
    "cloud-config" key, the attempt succeeds with the empty string, the
    base64 text of no bytes, and so does the whole fetch at its first
    attempt. *)
Theorem cloud_config_missing_key {B} (kubeCl : KubernetesClient B)
    (nodeGroupName : string) (w : World B) (secret : Secret) :
  fst (Secrets_Get kubeCl "d8-cloud-instance-manager"
         ("manual-bootstrap-for-" +:+ nodeGroupName) (backend w)) = Ok secret →
  Data secret !! "cloud-config" = None →
  fst (GetCloudConfig_task kubeCl nodeGroupName w) = Success ""
  ∧ fst (GetCloudConfig kubeCl nodeGroupName w) = ("", None).
Proof.
  intros Hget Hkey.
  assert (fst (GetCloudConfig_task kubeCl nodeGroupName w) = Success "") as Htask.
  { unfold GetCloudConfig_task. unfold_M.
    destruct (Secrets_Get kubeCl _ _ (backend w)) as [r b]. simpl in *.
    subst r. simpl. by rewrite Hkey. }
  split; [done|].
  unfold GetCloudConfig, StartSilentLoop, run. rewrite loop_unfold. unfold_M.
  destruct (GetCloudConfig_task kubeCl nodeGroupName w) as [r w1].
  simpl in *. by subst r.
Qed.

(** An instance of [cloud_config_missing_key]: the secret of group "worker"
    holds another key only. *)
Lemma cloud_config_missing_key_witness :
  let secret := {| Data := {[ "other" := [x61]%byte ]} |} in
  let cluster :=
    {| Fake.nodes := []; Fake.nodeGroups := [];
       Fake.secrets :=
         {[ ("d8-cloud-instance-manager", "manual-bootstrap-for-worker")
              := secret ]} |} in
  fst (GetCloudConfig_task Fake.client "worker" (Fake.start cluster)) = Success ""
  ∧ fst (GetCloudConfig Fake.client "worker" (Fake.start cluster)) = ("", None).
Proof.
  intros secret cluster.
  apply (cloud_config_missing_key Fake.client "worker" (Fake.start cluster) secret);
    vm_compute; reflexivity.
Defined.

(** ** CreateNodeGroup *)

(** What one attempt of the upsert returns, by the answers of the backend:
    a creation succeeds; on "already exists" the declaration is encoded and
    merge-patched over the object of its name, and the attempt fails with
    the encoding error or with the patch error if there is one; on any
    other creation error the attempt returns nil. *)
Lemma CreateNodeGroup_task_outcome {B}
    (MarshalJSON : Unstructured → result (list byte))
    (kubeCl : KubernetesClient B) (doc : Unstructured) (w : World B) :
  fst (CreateNodeGroup_task MarshalJSON kubeCl doc w)
    = match Dynamic_Create kubeCl nodeGroupResource doc (backend w) with
      | (Ok _, _) => Success tt
      | (Err err, b) =>
          if IsAlreadyExists (Some err) then
            match MarshalJSON doc with
            | Err err' => Retryable err'
            | Ok content =>
                match fst (Dynamic_Patch kubeCl nodeGroupResource (GetName doc)
                             MergePatchType content b) with
                | Err err' => Retryable err'
                | Ok _ => Success tt
                end
            end
          else Success tt
      end.
Proof.
  unfold CreateNodeGroup_task. unfold_M. fold nodeGroupResource.
  destruct (Dynamic_Create kubeCl nodeGroupResource doc (backend w))
    as [[res|err] b]; simpl; [done|].
  destruct (IsAlreadyExists (Some err)); simpl; [|done].
  destruct (MarshalJSON doc) as [content|err']; simpl; [|done].
  by destruct (Dynamic_Patch kubeCl nodeGroupResource (GetName doc)
                 MergePatchType content b) as [[obj|err'] b'].
Qed.

(** The calls of one attempt when the name is taken: the creation, then a
    merge patch of the encoded declaration against the object of that
    name. *)
Lemma CreateNodeGroup_task_patch {B}
    (MarshalJSON : Unstructured → result (list byte))
    (kubeCl : KubernetesClient B) (doc : Unstructured) (w : World B)
    (message : string) (content : list byte) :
  fst (Dynamic_Create kubeCl nodeGroupResource doc (backend w))
    = Err (StatusError "AlreadyExists" message) →
  MarshalJSON doc = Ok content →
  calls (trace (snd (CreateNodeGroup_task MarshalJSON kubeCl doc w)))
    = calls (trace w)
        ++ [CallCreate nodeGroupResource doc;
            CallPatch nodeGroupResource (GetName doc) MergePatchType content].
Proof.
  intros Hcreate Hjson.
  unfold CreateNodeGroup_task. unfold_M. fold nodeGroupResource.
  destruct (Dynamic_Create kubeCl nodeGroupResource doc (backend w))
    as [r b]; simpl in *. subst r. simpl. rewrite Hjson. simpl.
  destruct (Dynamic_Patch kubeCl nodeGroupResource (GetName doc)
              MergePatchType content b) as [[obj|err'] b']; simpl;
    unfold calls; rewrite ?filter_app; simpl;
    rewrite ?app_nil_r, <- ?app_assoc; reflexivity.
Qed.

(** The scenario of the spec: the name "ng-1" is taken, the attempt patches
    "ng-1" and the upsert returns nil. *)
Example create_already_exists :
  let cluster := {| Fake.nodes := []; Fake.nodeGroups := [Fake.group "ng-1"];
                    Fake.secrets := ∅ |} in
  let out := CreateNodeGroup Fake.marshal Fake.client "ng-1"
               (Object (Fake.group "ng-1")) (Fake.start cluster) in
  fst out = None
  ∧ calls (trace (snd out))
    = [CallCreate nodeGroupResource (Fake.group "ng-1");
       CallPatch nodeGroupResource "ng-1" MergePatchType [x7b; x7d]%byte].
Proof. vm_compute. done. Qed.

(** C1, where the code departs from it.  The creation is refused with an
    error that is not "already exists" (here: forbidden).  The attempt
    returns nil all the same, so the upsert returns nil after this one call:
    the error is not returned, nothing is retried and no node group
    exists. *)
Theorem create_error_is_dropped :
  let err := StatusError "Forbidden" "nodegroups.deckhouse.io is forbidden" in
  CreateNodeGroup Fake.marshal (Fake.broken err) "ng-1"
    (Object (Fake.group "ng-1")) (Fake.start tt)
  = (None,
     {| backend := tt;
        trace := [CallCreate nodeGroupResource (Fake.group "ng-1")] |}).
Proof. vm_compute. reflexivity. Qed.

(** ** The readiness summary *)

Lemma markReady_elem (readyNodes : gset string) (node : Node) (name : string) :
  name ∈ markReady readyNodes node
  ↔ name ∈ readyNodes ∨ (name = Name node ∧ isReady node = true).
Proof.
  unfold markReady, isReady. revert readyNodes.
  induction (Conditions node) as [|c rest IH]; intros readyNodes; simpl.
  - naive_solver.
  - rewrite IH. repeat case_bool_decide; simpl; set_solver.
Qed.

Lemma readyNodes_elem (readyNodes : gset string) (items : list Node)
    (name : string) :
  name ∈ foldl markReady readyNodes items
  ↔ name ∈ readyNodes
    ∨ ∃ node, node ∈ items ∧ Name node = name ∧ isReady node = true.
Proof.
  revert readyNodes. induction items as [|node rest IH]; intros readyNodes; simpl.
  - split; [auto|]. intros [?|(node & Hin & _)]; [done|]. by inversion Hin.
  - rewrite IH, markReady_elem. split.
    + intros [[?|[-> Hr]]|(n & Hin & Hn & Hr)]; [by left| |].
      * right. exists node. split; [left|done].
      * right. exists n. split; [by right|done].
    + intros [?|(n & Hin & Hn & Hr)]; [by left; left|].
      apply elem_of_cons in Hin as [->|Hin].
      * left. right. by subst.
      * right. by exists n.
Qed.

Lemma readyNodesOf_elem (items : list Node) (name : string) :
  name ∈ readyNodesOf items
  ↔ ∃ node, node ∈ items ∧ Name node = name ∧ isReady node = true.
Proof. unfold readyNodesOf. rewrite readyNodes_elem. set_solver. Qed.

Lemma readyNodesOf_list (items : list Node) :
  readyNodesOf items = list_to_set (Name <$> List.filter isReady items).
Proof.
  apply set_eq. intros name.
  rewrite readyNodesOf_elem, elem_of_list_to_set, list_elem_of_fmap. split.
  - intros (node & Hin & Hn & Hr). exists node. split; [done|].
    apply list_elem_of_In, filter_In. by rewrite <- list_elem_of_In.
  - intros (node & Hn & Hin). exists node.
    apply list_elem_of_In, filter_In in Hin as [Hin Hr].
    by rewrite list_elem_of_In.
Qed.

Lemma size_list_to_set_remove_dups (l : list string) :
  size (list_to_set (C := gset string) l) = length (remove_dups l).
Proof.
  rewrite <- (size_list_to_set (C := gset string) (remove_dups l))
    by apply NoDup_remove_dups.
  f_equal. apply set_eq. intros x.
  by rewrite !elem_of_list_to_set, elem_of_remove_dups.
Qed.

Lemma size_readyNodesOf (items : list Node) :
  size (readyNodesOf items) = readyCount items.
Proof. unfold readyCount. by rewrite readyNodesOf_list, size_list_to_set_remove_dups. Qed.

Lemma checkReadiness_outcome {B} (items : list Node) (desiredReadyNodes : Z)
    (w : World B) :
  checkReadiness items desiredReadyNodes w
    = let message := readinessMessage items (readyNodesOf items) desiredReadyNodes in
      if bool_decide (desiredReadyNodes ≤ Z.of_nat (readyCount items))%Z
      then (Success tt,
            {| backend := backend w; trace := trace w ++ [InfoLn message] |})
      else (Retryable (Errorf (TrimSuffix message newline) []), w).
Proof.
  unfold checkReadiness. rewrite size_readyNodesOf. unfold_M. simpl.
  destruct (Z.geb_spec (Z.of_nat (readyCount items)) desiredReadyNodes).
  - by rewrite bool_decide_eq_true_2 by lia.
  - by rewrite bool_decide_eq_false_2 by lia.
Qed.

(** C3.  The names the aggregation holds ready are those of the observed
    nodes with a condition of type Ready and status True, so a node without
    such a condition adds nothing; their number is the number of distinct
    ready nodes; and for every desired count the aggregation is satisfied,
    in the wait for a whole group and by itself, exactly when that number
    is at least the desired count. *)
Theorem readiness_satisfied {B} (kubeCl : KubernetesClient B)
    (nodeGroupName : string) (observed : list Node) (desiredCount : Z)
    (w : World B) :
  (∀ name, name ∈ readyNodesOf observed
           ↔ ∃ node, node ∈ observed ∧ Name node = name
                     ∧ ∃ c, c ∈ Conditions node
                            ∧ Type_ c = "Ready" ∧ Status c = "True")
  ∧ size (readyNodesOf observed) = readyCount observed
  ∧ (isSuccess (fst (checkReadiness observed desiredCount w)) = true
     ↔ (Z.of_nat (readyCount observed) >= desiredCount)%Z)
  ∧ isSuccess (fst (WaitForNodesBecomeReady_task kubeCl nodeGroupName
                      desiredCount w))
    = match fst (Nodes_List kubeCl ("node.deckhouse.io/group=" +:+ nodeGroupName)
                   (backend w)) with
      | Err _ => false
      | Ok items => bool_decide (Z.of_nat (readyCount items) >= desiredCount)%Z
      end.
Proof.
  split.
  { intros name. rewrite readyNodesOf_elem.
    by setoid_rewrite isReady_spec. }
  split; [apply size_readyNodesOf|].
  split.
  - rewrite checkReadiness_outcome. simpl.
    case_bool_decide; simpl; split; (done || lia).
  - unfold WaitForNodesBecomeReady_task. unfold_M.
    destruct (Nodes_List kubeCl _ (backend w)) as [[items|err] b]; simpl; [|done].
    rewrite checkReadiness_outcome. simpl.
    repeat case_bool_decide; simpl; (done || lia).
Qed.

Lemma append_nil_r (s : string) : s +:+ "" = s.
Proof. induction s as [|a s IH]; [done|]. rewrite append_String. by rewrite IH. Qed.

Lemma readinessMessage_lines (items : list Node) (readyNodes : gset string)
    (desiredReadyNodes : Z) :
  readinessMessage items readyNodes desiredReadyNodes
    = summaryHeader (size readyNodes) desiredReadyNodes
        +:+ joined (nodeLine readyNodes <$> items).
Proof.
  unfold readinessMessage, summaryHeader.
  generalize ("Nodes Ready " +:+ pretty (size readyNodes) +:+ " of "
                +:+ pretty desiredReadyNodes +:+ newline) as init.
  induction items as [|node rest IH]; intros init; simpl.
  - by rewrite append_nil_r.
  - rewrite IH. by rewrite append_assoc.
Qed.


(** C4.  The summary is the line "Nodes Ready <readyCount> of
    <desiredCount>" followed by one line per observed node, in the order of
    the observed sequence, each saying Ready or NotReady; it is the text the
    attempt of either wait logs when satisfied and fails with, less the last
    line break, when not.  For the nodes a (ready), b (not ready) and
    c (ready) and a desired count of 2 the aggregation is satisfied and the
    summary starts with "Nodes Ready 2 of 2". *)
Theorem readiness_summary {B} (observed : list Node) (desiredCount : Z)
    (w : World B) :
  let summary :=
    summaryHeader (readyCount observed) desiredCount
      +:+ joined (nodeLine (readyNodesOf observed) <$> observed) in
  readinessMessage observed (readyNodesOf observed) desiredCount = summary
  ∧ checkReadiness observed desiredCount w
    = (if bool_decide (desiredCount ≤ Z.of_nat (readyCount observed))%Z
       then (Success tt,
             {| backend := backend w; trace := trace w ++ [InfoLn summary] |})
       else (Retryable (Errorf (TrimSuffix summary newline) []), w))
  ∧ (let abc := [Fake.ready "a"; Fake.notReady "b"; Fake.ready "c"] in
     isSuccess (fst (checkReadiness abc 2 w)) = true
     ∧ readinessMessage abc (readyNodesOf abc) 2
       = "Nodes Ready 2 of 2" +:+ newline
           +:+ "* a | Ready" +:+ newline
           +:+ "* b | NotReady" +:+ newline
           +:+ "* c | Ready" +:+ newline).
Proof.
  intros summary.
  assert (readinessMessage observed (readyNodesOf observed) desiredCount = summary)
    as Hmsg.
  { rewrite readinessMessage_lines. by rewrite size_readyNodesOf. }
  split; [done|]. split.
  - rewrite checkReadiness_outcome. simpl. by rewrite Hmsg.
  - split; [|by vm_compute]. rewrite checkReadiness_outcome. by vm_compute.
Qed.

(** The two waits on the three nodes a, b and c: the attempt of each logs
    the summary, node by node in the order the nodes were observed. *)
Example summary_of_both_waits :
  let abc := Fake.cluster [Fake.ready "a"; Fake.notReady "b"; Fake.ready "c"] in
  let summary :=
    "Nodes Ready 2 of 2" +:+ newline +:+ "* a | Ready" +:+ newline
      +:+ "* b | NotReady" +:+ newline +:+ "* c | Ready" +:+ newline in
  WaitForNodesBecomeReady_task Fake.client "workers" 2 (Fake.start abc)
  = (Success tt,
     {| backend := abc;
        trace := [CallNodesList "node.deckhouse.io/group=workers";
                  InfoLn summary] |})
  ∧ fst (WaitForNodesListBecomeReady_task Fake.client ["c"; "b"; "a"]
           (Fake.start abc))
    = Retryable (Errorf ("Nodes Ready 2 of 3" +:+ newline
                           +:+ "* c | Ready" +:+ newline
                           +:+ "* b | NotReady" +:+ newline
                           +:+ "* a | Ready") []).
Proof. by vm_compute. Qed.

(** ** WaitForNodesListBecomeReady *)


Lemma calls_app (tr1 tr2 : list Event) :
  calls (tr1 ++ tr2) = calls tr1 ++ calls tr2.
Proof. apply filter_app. Qed.


(** When every fetch succeeds: one node per name was appended, the names
    were fetched one by one in order, and nothing else was done. *)
Lemma getNodes_ok {B} (kubeCl : KubernetesClient B) (nodes : list string)
    (items items1 : list Node) (w w1 : World B) :
  getNodes kubeCl nodes items w = (Ok items1, w1) →
  ∃ fetched,
    items1 = items ++ fetched
    ∧ length fetched = length nodes
    ∧ trace w1 = trace w ++ (CallNodesGet <$> nodes)
    ∧ ((∀ name b node b',
          Nodes_Get kubeCl name b = (Ok node, b') → Name node = name) →
       Name <$> fetched = nodes).
Proof.
  revert items w. induction nodes as [|name rest IH]; intros items w; simpl.
  - unfold_M. intros [= <- <-]. exists []. by rewrite !app_nil_r.
  - unfold_M.
    destruct (Nodes_Get kubeCl name (backend w)) as [[node|err] b] eqn:Hget;
      simpl; [|done].
    intros (fetched & -> & Hlen & Htr & Hnames)%IH. simpl in *.
    exists (node :: fetched). rewrite <- app_assoc. simpl.
    split; [done|]. split; [by rewrite Hlen|].
    split; [by rewrite Htr, <- app_assoc|].
    intros Hnamed. f_equal; [by eapply Hnamed | by apply Hnames].
Qed.



Lemma remove_dups_length_le (l : list string) :
  length (remove_dups l) ≤ length l.
Proof.
  induction l as [|x l IH]; simpl; [done|]. case_decide; simpl; lia.
Qed.

Lemma remove_dups_length_lt (l : list string) :
  ¬ NoDup l → length (remove_dups l) < length l.
Proof.
  induction l as [|x l IH]; intros Hdup; simpl.
  - destruct Hdup. constructor.
  - case_decide as Hin; simpl.
    + pose proof (remove_dups_length_le l). lia.
    + assert (¬ NoDup l) as Hl by (intros Hnd; apply Hdup; by constructor).
      specialize (IH Hl). lia.
Qed.

Lemma readyCount_names (items : list Node) :
  readyCount items ≤ length (remove_dups (Name <$> items)).
Proof.
  rewrite <- size_readyNodesOf, <- size_list_to_set_remove_dups.
  apply subseteq_size. intros name (node & Hin & Hname & _)%readyNodesOf_elem.
  apply elem_of_list_to_set, list_elem_of_fmap. by exists node.
Qed.

(** C9.  The client answers a fetch with the node of the name asked for.
    Then, for a list of names in which a name occurs twice: whenever every
    fetch succeeds the ready count is at most the number of distinct names,
    which is less than the number of entries; so the attempt fails in every
    world, and the wait ends with an error however ready the nodes are. *)
Theorem duplicate_names_never_ready {B} (kubeCl : KubernetesClient B)
    (nodes : list string) :
  (∀ name b node b', Nodes_Get kubeCl name b = (Ok node, b') → Name node = name) →
  ¬ NoDup nodes →
  (∀ w items w1,
     getNodes kubeCl nodes [] w = (Ok items, w1) →
     readyCount items ≤ length (remove_dups nodes)
     ∧ length (remove_dups nodes) < length nodes)
  ∧ (∀ w, failing (fst (WaitForNodesListBecomeReady_task kubeCl nodes w)))
  ∧ (∀ w, ∃ err, fst (WaitForNodesListBecomeReady kubeCl nodes w) = Some err).
Proof.
  intros Hnamed Hdup.
  assert (∀ w items w1,
            getNodes kubeCl nodes [] w = (Ok items, w1) →
            readyCount items ≤ length (remove_dups nodes)
            ∧ length (remove_dups nodes) < length nodes) as Hcount.
  { intros w items w1 Hget.
    destruct (getNodes_ok _ _ _ _ _ _ Hget) as (fetched & -> & _ & _ & Hnames).
    simpl. split; [|by apply remove_dups_length_lt].
    rewrite <- (Hnames Hnamed) at 1. apply readyCount_names. }
  assert (∀ w, failing (fst (WaitForNodesListBecomeReady_task kubeCl nodes w)))
    as Hfail.
  { intros w. unfold WaitForNodesListBecomeReady_task. unfold_M.
    destruct (getNodes kubeCl nodes [] w) as [[items|err] w1] eqn:Hget; [|done].
    destruct (Hcount _ _ _ Hget) as [Hle Hlt].
    rewrite checkReadiness_outcome. simpl.
    by rewrite bool_decide_eq_false_2 by lia. }
  split; [done|]. split; [done|].
  intros w. unfold WaitForNodesListBecomeReady, StartLoop, run. unfold_M.
  pose proof (loop_always_fails (Plain "Waiting for nodes to become Ready")
                {| maxAttempts := 100; intervalSeconds := 20; silent := false |}
                _ 1 (Pos.to_nat 100 - 1) w Hfail) as Hrun.
  unfold_M.
  destruct (loop _ _ _ 1 _ w) as [[v|err] w1]; simpl in *; [done|].
  by exists err.
Qed.

(** An instance of [duplicate_names_never_ready]: the node n is ready and
    the list names it twice; one attempt finds 1 ready node of 2. *)
Lemma duplicate_names_never_ready_witness :
  let w := Fake.start (Fake.cluster [Fake.ready "n"]) in
  failing (fst (WaitForNodesListBecomeReady_task Fake.client ["n"; "n"] w))
  ∧ (∃ err, fst (WaitForNodesListBecomeReady Fake.client ["n"; "n"] w) = Some err)
  ∧ fst (WaitForNodesListBecomeReady_task Fake.client ["n"; "n"] w)
    = Retryable (Errorf ("Nodes Ready 1 of 2" +:+ newline
                           +:+ "* n | Ready" +:+ newline +:+ "* n | Ready") []).
Proof.
  intros w.
  destruct (duplicate_names_never_ready Fake.client ["n"; "n"])
    as (_ & Hfail & Hwait).
  - intros name b node b'. simpl.
    destruct (find (Fake.named name) (Fake.nodes b)) as [found|] eqn:Hfind;
      [|done].
    intros [= <- <-]. apply find_some in Hfind as [_ Hname].
    by apply bool_decide_eq_true in Hname.
  - intros Hnd. apply NoDup_cons in Hnd as [Hnotin _]. apply Hnotin. left.
  - split; [apply Hfail|]. split; [apply Hwait|]. reflexivity.
Defined.

(** * Further properties of node.go *)

(** ** Where the errors of the operations come from *)

(** What the executor returns is the outcome of one of the invocations of
    the attempt function. *)
Lemma loop_outcome_of_attempt {B T} (label : text) (policy : AttemptPolicy)
    (attempt : M B (Result T)) (i more : nat) (w : World B) :
  ∃ w', fst (loop label policy attempt i more w) = fst (attempt w').
Proof.
  revert i w. induction more as [|more IH]; intros i w; rewrite loop_unfold;
    unfold_M; destruct (attempt w) as [[v|err] w1] eqn:Hw; simpl.
  - exists w. by rewrite Hw.
  - exists w. rewrite Hw. by destruct (silent policy).
  - exists w. by rewrite Hw.
  - destruct (silent policy); simpl; apply IH.
Qed.


(** DeleteNode and DeleteNodeGroup never return "not found": an error they
    return is one the backend gave to a deletion of that name, with another
    reason. *)
Theorem delete_error_origin {B} (kubeCl : KubernetesClient B) (name : string)
    (w : World B) (err : error) :
  (fst (DeleteNode kubeCl name w) = Some err →
   IsNotFound (Some err) = false
   ∧ ∃ b, fst (Nodes_Delete kubeCl name b) = Some err)
  ∧ (fst (DeleteNodeGroup kubeCl name w) = Some err →
     IsNotFound (Some err) = false
     ∧ ∃ b, fst (Dynamic_Delete kubeCl nodeGroupResource name b) = Some err).
Proof.
  split; intros Hop.
  - unfold DeleteNode, StartLoop, run in Hop. unfold mbind at 1 in Hop.
    unfold M_bind, mret, M_ret in Hop.
    match type of Hop with context [loop ?l ?p ?a ?i ?n w] =>
      destruct (loop_outcome_of_attempt l p a i n w) as [w' Hw'];
      destruct (loop l p a i n w) as [r w1] end.
    simpl in *. destruct r as [v|e]; [done|]. injection Hop as ->.
    unfold DeleteNode_task in Hw'. unfold_M.
    destruct (Nodes_Delete kubeCl name (backend w')) as [[e|] b] eqn:Hdel;
      simpl in *; [|done].
    destruct (IsNotFound (Some e)) eqn:Hnf; simpl in *; [done|].
    injection Hw' as ->. split; [done|]. exists (backend w'). by rewrite Hdel.
  - unfold DeleteNodeGroup, StartLoop, run in Hop. unfold mbind at 1 in Hop.
    unfold M_bind, mret, M_ret in Hop.
    match type of Hop with context [loop ?l ?p ?a ?i ?n w] =>
      destruct (loop_outcome_of_attempt l p a i n w) as [w' Hw'];
      destruct (loop l p a i n w) as [r w1] end.
    simpl in *. destruct r as [v|e]; [done|]. injection Hop as ->.
    unfold DeleteNodeGroup_task in Hw'. unfold_M.
    destruct (Dynamic_Delete kubeCl nodeGroupResource name (backend w'))
      as [[e|] b] eqn:Hdel; simpl in *; [|done].
    destruct (IsNotFound (Some e)) eqn:Hnf; simpl in *; [done|].
    injection Hw' as ->. split; [done|]. exists (backend w'). by rewrite Hdel.
Qed.

(** An instance of [delete_error_origin]: every deletion is refused. *)
Lemma delete_error_origin_witness :
  let err := StatusError "Forbidden" "nodes is forbidden" in
  IsNotFound (Some err) = false
  ∧ ∃ b, fst (Nodes_Delete (Fake.broken err) "node-1" b) = Some err.
Proof.
  intros err.
  destruct (delete_error_origin (Fake.broken err) "node-1" (Fake.start tt) err)
    as [Hnode _].
  apply Hnode. vm_compute. reflexivity.
Defined.

Ltac outcome_of_loop Hop w w' Hw' :=
  unfold StartLoop, StartSilentLoop, run in Hop; unfold mbind at 1 in Hop;
  unfold M_bind, mret, M_ret in Hop;
  match type of Hop with context [loop ?l ?p ?a ?i ?n w] =>
    destruct (loop_outcome_of_attempt l p a i n w) as [w' Hw'];
    destruct (loop l p a i n w) as [? ?] end;
  simpl in *.

(** CreateNodeGroup returns an error only from the path taken when the
    name exists: in the attempt the error comes from, the creation was
    answered "already exists", and the error is the one of encoding the
    declaration or the one the backend then gave to the merge patch of the
    object named in the declaration. *)
Theorem upsert_error_origin {B} (MarshalJSON : Unstructured → result (list byte))
    (kubeCl : KubernetesClient B) (nodeGroupName : string)
    (data : gmap string value) (w : World B) (err : error) :
  fst (CreateNodeGroup MarshalJSON kubeCl nodeGroupName data w) = Some err →
  ∃ b message b',
    Dynamic_Create kubeCl nodeGroupResource {| Object := data |} b
      = (Err (StatusError "AlreadyExists" message), b')
    ∧ (MarshalJSON {| Object := data |} = Err err
       ∨ ∃ content,
           MarshalJSON {| Object := data |} = Ok content
           ∧ fst (Dynamic_Patch kubeCl nodeGroupResource
                    (GetName {| Object := data |}) MergePatchType content b')
             = Err err).
Proof.
  intros Hop. unfold CreateNodeGroup in Hop. outcome_of_loop Hop w w' Hw'.
  destruct r as [v|e]; [done|]. injection Hop as ->.
  rewrite CreateNodeGroup_task_outcome in Hw'.
  destruct (Dynamic_Create kubeCl nodeGroupResource _ (backend w'))
    as [[res|e] b'] eqn:Hcreate; [done|].
  destruct (IsAlreadyExists (Some e)) eqn:Hexists; [|done].
  apply IsAlreadyExists_spec in Hexists as [message ->].
  exists (backend w'), message, b'. split; [done|].
  destruct (MarshalJSON {| Object := data |}) as [content|e'] eqn:Hjson.
  - right. exists content. split; [done|].
    destruct (Dynamic_Patch _ _ _ _ _ b') as [[obj|e'] b'']; simpl in *;
      [done|congruence].
  - left. congruence.
Qed.

(** An instance of [upsert_error_origin]: the name is taken and the patch is
    refused. *)
Lemma upsert_error_origin_witness :
  let err := StatusError "Forbidden" "nodegroups.deckhouse.io is forbidden" in
  let kubeCl : KubernetesClient unit := {|
    Secrets_Get _ _ b := (Err err, b);
    Nodes_Get _ b := (Err err, b);
    Nodes_List _ b := (Err err, b);
    Nodes_Delete _ b := (Some err, b);
    Dynamic_Create _ obj b := (Err (Fake.alreadyExists (GetName obj)), b);
    Dynamic_Patch _ _ _ _ b := (Err err, b);
    Dynamic_List _ b := (Err err, b);
    Dynamic_Delete _ _ b := (Some err, b);
  |} in
  ∃ b message b',
    Dynamic_Create kubeCl nodeGroupResource (Fake.group "ng-1") b
      = (Err (StatusError "AlreadyExists" message), b')
    ∧ (Fake.marshal (Fake.group "ng-1") = Err err
       ∨ ∃ content,
           Fake.marshal (Fake.group "ng-1") = Ok content
           ∧ fst (Dynamic_Patch kubeCl nodeGroupResource "ng-1"
                    MergePatchType content b') = Err err).
Proof.
  intros err kubeCl.
  apply (upsert_error_origin Fake.marshal kubeCl "ng-1"
           (Object (Fake.group "ng-1")) (Fake.start tt) err).
  vm_compute. reflexivity.
Defined.

(** The calls of one attempt of the upsert: the creation of the declaration
    under deckhouse.io/v1alpha1 nodegroups comes first; a merge patch
    follows only when the creation was answered "already exists" and the
    declaration could be encoded, and it goes to the name found in the
    declaration; there is no other call. *)
Theorem upsert_attempt_calls {B} (MarshalJSON : Unstructured → result (list byte))
    (kubeCl : KubernetesClient B) (doc : Unstructured) (w : World B) :
  calls (trace (snd (CreateNodeGroup_task MarshalJSON kubeCl doc w)))
    = calls (trace w)
        ++ CallCreate {| Group := "deckhouse.io"; Version := "v1alpha1";
                         Resource := "nodegroups" |} doc
        :: match fst (Dynamic_Create kubeCl nodeGroupResource doc (backend w)),
                 MarshalJSON doc with
           | Err err, Ok content =>
               if IsAlreadyExists (Some err)
               then [CallPatch nodeGroupResource (GetName doc) MergePatchType
                               content]
               else []
           | _, _ => []
           end.
Proof.
  unfold CreateNodeGroup_task. unfold_M. fold nodeGroupResource.
  destruct (Dynamic_Create kubeCl nodeGroupResource doc (backend w))
    as [[res|err] b]; simpl.
  - rewrite !calls_app. simpl. rewrite app_nil_r.
    by destruct (MarshalJSON doc).
  - destruct (IsAlreadyExists (Some err)); simpl.
    + destruct (MarshalJSON doc) as [content|err']; simpl.
      * destruct (Dynamic_Patch _ _ _ _ _ b) as [[obj|err'] b']; simpl;
          rewrite !calls_app; simpl; rewrite ?app_nil_r, <- ?app_assoc; done.
      * rewrite !calls_app. simpl. by rewrite app_nil_r.
    + rewrite calls_app. simpl. by destruct (MarshalJSON doc).
Qed.

(** An error a readiness wait returns is a fetch or listing error of the
    backend, or the error the task builds: the not-Ready error of the single
    node, the summary for a group or a list of names. *)
Theorem wait_error_origin {B} (kubeCl : KubernetesClient B) (name : string)
    (nodes : list string) (desiredReadyNodes : Z) (w : World B) (err : error) :
  (fst (WaitForSingleNodeBecomeReady kubeCl name w) = Some err →
   (∃ b, fst (Nodes_Get kubeCl name b) = Err err)
   ∨ err = Errorf "node %q is not Ready yet" [name])
  ∧ (fst (WaitForNodesBecomeReady kubeCl name desiredReadyNodes w) = Some err →
     (∃ b, fst (Nodes_List kubeCl ("node.deckhouse.io/group=" +:+ name) b)
           = Err err)
     ∨ ∃ items,
         err = Errorf (TrimSuffix (readinessMessage items (readyNodesOf items)
                                     desiredReadyNodes) newline) []
         ∧ (Z.of_nat (readyCount items) < desiredReadyNodes)%Z)
  ∧ (fst (WaitForNodesListBecomeReady kubeCl nodes w) = Some err →
     (∃ nodeName b, nodeName ∈ nodes
                    ∧ fst (Nodes_Get kubeCl nodeName b) = Err err)
     ∨ ∃ items,
         err = Errorf (TrimSuffix (readinessMessage items (readyNodesOf items)
                                     (Z.of_nat (length nodes))) newline) []
         ∧ readyCount items < length nodes).
Proof.
  split; [|split]; intros Hop.
  - unfold WaitForSingleNodeBecomeReady in Hop. outcome_of_loop Hop w w' Hw'.
    destruct r as [v|e]; [done|]. injection Hop as ->.
    unfold WaitForSingleNodeBecomeReady_task in Hw'. unfold_M.
    destruct (Nodes_Get kubeCl name (backend w')) as [[node|e] b] eqn:Hget;
      simpl in *.
    + right. destruct (readyCondition (Conditions node)); simpl in *; congruence.
    + left. exists (backend w'). rewrite Hget. simpl. congruence.
  - unfold WaitForNodesBecomeReady in Hop. outcome_of_loop Hop w w' Hw'.
    destruct r as [v|e]; [done|]. injection Hop as ->.
    unfold WaitForNodesBecomeReady_task in Hw'. unfold_M.
    destruct (Nodes_List kubeCl _ (backend w')) as [[items|e] b] eqn:Hlist;
      simpl in *.
    + right. exists items. rewrite checkReadiness_outcome in Hw'. simpl in Hw'.
      case_bool_decide; simpl in *; [done|]. split; [congruence|lia].
    + left. exists (backend w'). rewrite Hlist. simpl. congruence.
  - unfold WaitForNodesListBecomeReady in Hop. outcome_of_loop Hop w w' Hw'.
    destruct r as [v|e]; [done|]. injection Hop as ->.
    unfold WaitForNodesListBecomeReady_task in Hw'. unfold_M.
    destruct (getNodes kubeCl nodes [] w') as [[items|e] w1] eqn:Hget;
      simpl in *.
    + right. exists items. rewrite checkReadiness_outcome in Hw'. simpl in Hw'.
      case_bool_decide; simpl in *; [done|]. split; [congruence|lia].
    + left. injection Hw' as ->. clear -Hget.
      revert Hget. generalize (@nil Node) as acc. revert w'.
      induction nodes as [|n rest IH]; intros w' acc; simpl; unfold_M; [done|].
      destruct (Nodes_Get kubeCl n (backend w')) as [[node|e2] b] eqn:Hn; simpl.
      * intros (nodeName & b' & Hin & Hb')%IH.
        exists nodeName, b'. split; [by right|done].
      * intros [= -> <-]. exists n, (backend w'). split; [left|by rewrite Hn].
Qed.

(** An instance of [wait_error_origin]: the node waited for does not
    exist. *)
Lemma wait_error_origin_witness :
  let err := Fake.notFound "node-1" in
  (∃ b, fst (Nodes_Get Fake.client "node-1" b) = Err err)
  ∨ err = Errorf "node %q is not Ready yet" ["node-1"].
Proof.
  intros err.
  destruct (wait_error_origin Fake.client "node-1" [] 0
              (Fake.start (Fake.cluster [])) err) as [Hsingle _].
  apply Hsingle. vm_compute. reflexivity.
Defined.

(** ** GetCloudConfig *)

(** The calls of an exhausted run whose every attempt makes the same
    calls. *)
Lemma loop_exhausted_calls {B T} (label : text) (policy : AttemptPolicy)
    (attempt : M B (Result T)) (made : list Event) (i more : nat) (w : World B) :
  (∀ w', failing (fst (attempt w'))) →
  (∀ w', calls (trace (snd (attempt w'))) = calls (trace w') ++ made) →
  calls (trace (snd (loop label policy attempt i more w)))
    = calls (trace w) ++ concat (replicate (S more) made).
Proof.
  intros Hfail Hmade. revert i w.
  induction more as [|more IH]; intros i w; rewrite loop_unfold; unfold_M;
    specialize (Hfail w); specialize (Hmade w);
    destruct (attempt w) as [[v|err] w1]; simpl in *; try discriminate.
  - destruct (silent policy); simpl; rewrite ?calls_app, Hmade; simpl;
      by rewrite !app_nil_r.
  - destruct (silent policy); simpl; rewrite IH; simpl;
      rewrite ?calls_app, Hmade; simpl; rewrite ?app_nil_r;
      by rewrite <- app_assoc.
Qed.

(** When the fetch of the bootstrap secret of the group succeeds,
    GetCloudConfig returns the base64 text of the bytes under "cloud-config"
    in that secret, and no error. *)
Theorem cloud_config_found {B} (kubeCl : KubernetesClient B)
    (nodeGroupName : string) (w : World B) (secret : Secret) :
  fst (Secrets_Get kubeCl "d8-cloud-instance-manager"
         ("manual-bootstrap-for-" +:+ nodeGroupName) (backend w)) = Ok secret →
  fst (GetCloudConfig kubeCl nodeGroupName w)
  = (EncodeToString (default [] (Data secret !! "cloud-config")), None).
Proof.
  intros Hget.
  unfold GetCloudConfig, StartSilentLoop, run. rewrite loop_unfold.
  unfold GetCloudConfig_task. unfold_M.
  destruct (Secrets_Get kubeCl _ _ (backend w)) as [r b]. simpl in *.
  by subst r.
Qed.

(** An instance of [cloud_config_found]: the secret of group "worker" holds
    the three bytes of "foo". *)
Lemma cloud_config_found_witness :
  let secret := {| Data := {[ "cloud-config" := [x66; x6f; x6f]%byte ]} |} in
  let cluster :=
    {| Fake.nodes := []; Fake.nodeGroups := [];
       Fake.secrets :=
         {[ ("d8-cloud-instance-manager", "manual-bootstrap-for-worker")
              := secret ]} |} in
  fst (GetCloudConfig Fake.client "worker" (Fake.start cluster)) = ("Zm9v", None).
Proof.
  intros secret cluster.
  by rewrite (cloud_config_found Fake.client "worker" (Fake.start cluster)
                secret eq_refl).
Defined.



(** The base64 text of n bytes has 4 characters for every 3 bytes, the last
    group filled up: its length is 4 * ceil(n / 3). *)
Theorem EncodeToString_length (src : list byte) :
  String.length (EncodeToString src) = 4 * ((length src + 2) / 3).
Proof.
  assert (∀ n src, length src ≤ n →
            String.length (EncodeToString src) = 4 * ((length src + 2) / 3))
    as Hall; [|by apply (Hall (length src))].
  clear src. intros n. induction n as [|n IH]; intros src Hlen.
  - destruct src; [done|simpl in Hlen; lia].
  - destruct src as [|b0 [|b1 [|b2 rest]]]; try done.
    cbn [EncodeToString String.length length].
    rewrite IH by (simpl in Hlen; lia).
    replace (S (S (S (length rest))) + 2) with (length rest + 2 + 1 * 3) by lia.
    rewrite Nat.div_add by done. lia.
Qed.

(** ** CreateNodeGroup, when the name is taken *)

(** The creation is answered "already exists", the declaration encodes and
    the patch is accepted: CreateNodeGroup returns nil at its first attempt,
    having made the creation and one merge patch of the encoded declaration
    against the name in the declaration, and it never sleeps. *)
Theorem upsert_already_exists {B} (MarshalJSON : Unstructured → result (list byte))
    (kubeCl : KubernetesClient B) (nodeGroupName : string)
    (data : gmap string value) (w : World B) (message : string)
    (content : list byte) (b b' : B) (obj : Unstructured) :
  let doc := {| Object := data |} in
  let err := StatusError "AlreadyExists" message in
  Dynamic_Create kubeCl nodeGroupResource doc (backend w) = (Err err, b) →
  MarshalJSON doc = Ok content →
  Dynamic_Patch kubeCl nodeGroupResource (GetName doc) MergePatchType content b
    = (Ok obj, b') →
  CreateNodeGroup MarshalJSON kubeCl nodeGroupName data w
  = (None,
     {| backend := b';
        trace := trace w
                   ++ [CallCreate nodeGroupResource doc;
                       InfoF "Object %v, updating ... " [ArgError err];
                       CallPatch nodeGroupResource (GetName doc) MergePatchType
                                 content;
                       InfoLn "OK!"] |}).
Proof.
  intros doc err Hcreate Hjson Hpatch.
  unfold CreateNodeGroup, StartLoop, run. rewrite loop_unfold.
  unfold CreateNodeGroup_task. unfold_M. fold nodeGroupResource. fold doc.
  rewrite Hcreate. simpl. rewrite Hjson. simpl. rewrite Hpatch. simpl.
  by rewrite <- !app_assoc.
Qed.

(** An instance of [upsert_already_exists]: the group ng-1 is in the
    cluster. *)
Lemma upsert_already_exists_witness :
  let cluster := {| Fake.nodes := []; Fake.nodeGroups := [Fake.group "ng-1"];
                    Fake.secrets := ∅ |} in
  fst (CreateNodeGroup Fake.marshal Fake.client "ng-1"
         (Object (Fake.group "ng-1")) (Fake.start cluster)) = None.
Proof.
  intros cluster.
  by rewrite (upsert_already_exists Fake.marshal Fake.client "ng-1"
                (Object (Fake.group "ng-1")) (Fake.start cluster)
                "ng-1 already exists" [x7b; x7d]%byte cluster cluster
                (Fake.group "ng-1") eq_refl eq_refl eq_refl).
Defined.

(** ** GetNodeGroupTemplates *)




(** When the listing never succeeds, GetNodeGroupTemplates lists 10 times
    and returns the empty map with an error of the listing. *)
Theorem group_templates_exhausted {B} (kubeCl : KubernetesClient B)
    (w : World B) :
  (∀ b, ∃ err, fst (Dynamic_List kubeCl nodeGroupResource b) = Err err) →
  let out := GetNodeGroupTemplates kubeCl w in
  fst (fst out) = ∅
  ∧ (∃ err b, snd (fst out) = Some err
              ∧ fst (Dynamic_List kubeCl nodeGroupResource b) = Err err)
  ∧ calls (trace (snd out))
    = calls (trace w) ++ replicate 10 (CallList nodeGroupResource).
Proof.
  intros Hlist out. subst out.
  assert (∀ w', failing (fst (GetNodeGroupTemplates_task kubeCl w'))) as Hfail.
  { intros w'. unfold GetNodeGroupTemplates_task. unfold_M.
    destruct (Hlist (backend w')) as [err Herr].
    destruct (Dynamic_List kubeCl nodeGroupResource (backend w')) as [r b].
    simpl in *. by subst r. }
  assert (∀ w', calls (trace (snd (GetNodeGroupTemplates_task kubeCl w')))
                = calls (trace w') ++ [CallList nodeGroupResource]) as Hmade.
  { intros w'. unfold GetNodeGroupTemplates_task. unfold_M.
    destruct (Dynamic_List kubeCl nodeGroupResource (backend w'))
      as [[groups|err] b]; simpl; by rewrite calls_app. }
  unfold GetNodeGroupTemplates, StartLoop, run. unfold mbind at 1 2 3.
  unfold M_bind.
  match goal with |- context [loop ?l ?p ?a ?i ?n w] =>
    pose proof (loop_always_fails l p a i n w Hfail) as Hr;
    destruct (loop_outcome_of_attempt l p a i n w) as [w' Hw'];
    pose proof (loop_exhausted_calls l p a _ i n w Hfail Hmade) as Hc;
    destruct (loop l p a i n w) as [[v|err] w1]; [done|]
  end.
  cbn [fst snd mret M_ret trace] in *.
  split; [done|]. split; [|by rewrite Hc].
  exists err, (backend w'). split; [done|].
  unfold GetNodeGroupTemplates_task in Hw'. unfold_M.
  destruct (Dynamic_List kubeCl nodeGroupResource (backend w'))
    as [[groups|e] b]; simpl in *; congruence.
Qed.

(** An instance of [group_templates_exhausted]: every listing is refused. *)
Lemma group_templates_exhausted_witness :
  let kubeCl := Fake.broken (errorString "connection refused") in
  fst (GetNodeGroupTemplates kubeCl (Fake.start tt))
  = (∅, Some (errorString "connection refused")).
Proof.
  intros kubeCl.
  destruct (group_templates_exhausted kubeCl (Fake.start tt))
    as (Hmap & (err & b & Herr & Hb) & _).
  - intros b. eexists. reflexivity.
  - simpl in Hb. injection Hb as <-.
    destruct (GetNodeGroupTemplates kubeCl (Fake.start tt)) as [[m e] w1].
    simpl in *. by subst.
Defined.

(** ** Readiness *)

(** Whether the aggregation is satisfied does not depend on the order in
    which the nodes were observed: a permutation of the nodes gives the same
    ready names and the same outcome (only the lines of the summary
    move). *)
Theorem readiness_order_irrelevant {B} (observed observed' : list Node)
    (desiredReadyNodes : Z) (w : World B) :
  observed ≡ₚ observed' →
  readyNodesOf observed = readyNodesOf observed'
  ∧ isSuccess (fst (checkReadiness observed desiredReadyNodes w))
    = isSuccess (fst (checkReadiness observed' desiredReadyNodes w)).
Proof.
  intros Hperm.
  assert (readyNodesOf observed = readyNodesOf observed') as Hset.
  { apply set_eq. intros name. rewrite !readyNodesOf_elem.
    by setoid_rewrite Hperm. }
  split; [done|]. unfold checkReadiness. rewrite Hset. unfold_M.
  by destruct (_ >=? _)%Z.
Qed.

(** An instance of [readiness_order_irrelevant]: two nodes swapped. *)
Lemma readiness_order_irrelevant_witness :
  readyNodesOf [Fake.ready "a"; Fake.notReady "b"]
  = readyNodesOf [Fake.notReady "b"; Fake.ready "a"].
Proof.
  apply (readiness_order_irrelevant (B := unit)
           [Fake.ready "a"; Fake.notReady "b"]
           [Fake.notReady "b"; Fake.ready "a"] 1 (Fake.start tt)).
  apply perm_swap.
Defined.

Lemma readyCount_le_length (items : list Node) : readyCount items ≤ length items.
Proof.
  etrans; [apply readyCount_names|].
  etrans; [apply remove_dups_length_le|]. by rewrite length_fmap.
Qed.

(** One attempt of the wait for a group, once the nodes are listed: a
    desired count of zero or less is met whatever was listed, the empty
    listing included; a desired count above the number of listed nodes is
    never met, since the ready count is at most that number. *)
Theorem group_wait_bounds {B} (kubeCl : KubernetesClient B)
    (nodeGroupName : string) (desiredReadyNodes : Z) (w : World B)
    (items : list Node) :
  fst (Nodes_List kubeCl ("node.deckhouse.io/group=" +:+ nodeGroupName)
         (backend w)) = Ok items →
  readyCount items ≤ length items
  ∧ ((desiredReadyNodes ≤ 0)%Z →
     fst (WaitForNodesBecomeReady_task kubeCl nodeGroupName desiredReadyNodes w)
     = Success tt)
  ∧ ((Z.of_nat (length items) < desiredReadyNodes)%Z →
     failing (fst (WaitForNodesBecomeReady_task kubeCl nodeGroupName
                     desiredReadyNodes w))).
Proof.
  intros Hlist. pose proof (readyCount_le_length items) as Hle.
  split; [done|].
  unfold WaitForNodesBecomeReady_task. unfold_M.
  destruct (Nodes_List kubeCl _ (backend w)) as [r b]. simpl in *. subst r.
  simpl. rewrite checkReadiness_outcome. simpl.
  split; intros Hd.
  - by rewrite bool_decide_eq_true_2 by lia.
  - by rewrite bool_decide_eq_false_2 by lia.
Qed.

(** An instance of [group_wait_bounds]: nothing is listed and nothing is
    asked for. *)
Lemma group_wait_bounds_witness :
  fst (WaitForNodesBecomeReady_task Fake.client "workers" 0
         (Fake.start (Fake.cluster []))) = Success tt.
Proof.
  destruct (group_wait_bounds Fake.client "workers" 0
              (Fake.start (Fake.cluster [])) [] eq_refl) as (_ & Hzero & _).
  apply Hzero. lia.
Defined.






(** With no name to wait for, WaitForNodesListBecomeReady returns nil at
    once: it calls the API not and sleeps not, and logs the summary of 0
    ready nodes of 0. *)
Theorem named_list_empty {B} (kubeCl : KubernetesClient B) (w : World B) :
  WaitForNodesListBecomeReady kubeCl [] w
  = (None,
     {| backend := backend w;
        trace := trace w ++ [InfoLn ("Nodes Ready 0 of 0" +:+ newline)] |}).
Proof.
  unfold WaitForNodesListBecomeReady, StartLoop, run. rewrite loop_unfold.
  reflexivity.
Qed.

(** Observing more nodes never lowers the ready count: when every node of
    one observation is in another, the ready names of the first are among
    those of the second, and a desired count the first meets is met by the
    second. *)
Theorem readiness_monotone {B} (observed observed' : list Node)
    (desiredReadyNodes : Z) (w : World B) :
  observed ⊆ observed' →
  readyNodesOf observed ⊆ readyNodesOf observed'
  ∧ readyCount observed ≤ readyCount observed'
  ∧ (fst (checkReadiness observed desiredReadyNodes w) = Success tt →
     fst (checkReadiness observed' desiredReadyNodes w) = Success tt).
Proof.
  intros Hsub.
  assert (readyNodesOf observed ⊆ readyNodesOf observed') as Hset.
  { intros name (node & Hin & Hname & Hready)%readyNodesOf_elem.
    apply readyNodesOf_elem. exists node. split; [by apply Hsub|done]. }
  assert (readyCount observed ≤ readyCount observed') as Hle.
  { rewrite <- !size_readyNodesOf. by apply subseteq_size. }
  split; [done|]. split; [done|].
  rewrite !checkReadiness_outcome. simpl.
  repeat case_bool_decide; simpl; (done || lia).
Qed.

(** An instance of [readiness_monotone]: a second ready node is observed. *)
Lemma readiness_monotone_witness :
  readyCount [Fake.ready "a"] ≤ readyCount [Fake.ready "a"; Fake.ready "b"].
Proof.
  apply (readiness_monotone (B := unit) [Fake.ready "a"]
           [Fake.ready "a"; Fake.ready "b"] 1 (Fake.start tt)).
  set_solver.
Defined.

(** The creation is accepted: CreateNodeGroup returns nil at its first
    attempt after this one call, and logs the name of the object the
    backend returned. *)
Theorem upsert_created {B} (MarshalJSON : Unstructured → result (list byte))
    (kubeCl : KubernetesClient B) (nodeGroupName : string)
    (data : gmap string value) (w : World B) (res : Unstructured) (b : B) :
  Dynamic_Create kubeCl nodeGroupResource {| Object := data |} (backend w)
    = (Ok res, b) →
  CreateNodeGroup MarshalJSON kubeCl nodeGroupName data w
  = (None,
     {| backend := b;
        trace := trace w
                   ++ [CallCreate nodeGroupResource {| Object := data |};
                       InfoF ("NodeGroup %q created" +:+ newline)
                             [ArgString (GetName res)]] |}).
Proof.
  intros Hcreate.
  unfold CreateNodeGroup, StartLoop, run. rewrite loop_unfold.
  unfold CreateNodeGroup_task. unfold_M. fold nodeGroupResource.
  rewrite Hcreate. simpl. by rewrite <- !app_assoc.
Qed.

(** An instance of [upsert_created]: the cluster has no node group yet. *)
Lemma upsert_created_witness :
  fst (CreateNodeGroup Fake.marshal Fake.client "ng-1"
         (Object (Fake.group "ng-1")) (Fake.start (Fake.cluster []))) = None.
Proof.
  by rewrite (upsert_created Fake.marshal Fake.client "ng-1"
                (Object (Fake.group "ng-1")) (Fake.start (Fake.cluster []))
                (Fake.group "ng-1")
                {| Fake.nodes := []; Fake.nodeGroups := [Fake.group "ng-1"];
                   Fake.secrets := ∅ |} eq_refl).
Defined.
